(** * Tubely upload pipeline: asset keys, media inspection, upload handlers

    A shallow embedding of [assets.go], [handler_upload_video.go] and the
    thumbnail handler, in the revisions the repository keeps.  Go strings are byte sequences and are
    modelled by [string]; Go's [int] is the 64-bit signed integer, modelled
    by [Z] with its wrap-around written out; the local disk and the
    in-memory thumbnail table are finite maps. *)

From Stdlib Require Import ZArith NArith Lia List Ascii String.
From Stdlib Require Import Strings.Byte.
From stdpp Require Import gmap strings list fin_maps.

Local Open Scope Z_scope.

(** ** Go library functions used by the code *)

Module GoStrings.

(** [strings.Split(s, sep)] for a one-byte separator: the pieces of [s]
    between the occurrences of [sep].  The result is never empty;
    [Split "" sep] is the one-element slice holding the empty string. *)
Fixpoint Split (s : string) (sep : ascii) : list string :=
  match s with
  | EmptyString => [EmptyString]
  | String c rest =>
      if Ascii.eqb c sep then EmptyString :: Split rest sep
      else match Split rest sep with
           | piece :: pieces => String c piece :: pieces
           | [] => [String c EmptyString]
           end
  end.

(** [strings.Count(s, sep)] for a one-byte separator. *)
Fixpoint Count (s : string) (sep : ascii) : nat :=
  match s with
  | EmptyString => O
  | String c rest => (if Ascii.eqb c sep then 1 else 0)%nat + Count rest sep
  end.

End GoStrings.

(** ** assets.go *)

Definition slash : ascii := "/"%char.

(** [mediaTypeToExt]: split on "/", ".bin" unless there are exactly two
    parts, otherwise "." followed by the second part. *)
Definition mediaTypeToExt (mediaType : string) : string :=
  let parts := GoStrings.Split mediaType slash in
  if negb (Nat.eqb (length parts) 2) then ".bin"%string
  else ("." +:+ nth 1 parts EmptyString)%string.


(** Go's [(T, error)] results: an error carries its message. *)
Inductive result (A : Type) : Type :=
| Ok (a : A)
| Err (msg : string).
Arguments Ok {A} a.
Arguments Err {A} msg.

(** A call either returns or panics (Go's [panic]). *)
Inductive outcome (A : Type) : Type :=
| Returned (a : A)
| Panicked (msg : string).
Arguments Returned {A} a.
Arguments Panicked {A} msg.

Module Base64.

(** The alphabet of [base64.URLEncoding]. *)
Definition encodeURL : string :=
  "ABCDEFGHIJKLMNOPQRSTUVWXYZabcdefghijklmnopqrstuvwxyz0123456789-_".

(** [enc.encode[v & 0x3F]] *)
Definition encode (v : N) : ascii :=
  match String.get (N.to_nat (N.land v 63)) encodeURL with
  | Some c => c
  | None => "A"%char
  end.

(** [base64.RawURLEncoding.EncodeToString]: three bytes give four
    characters; a remainder of one byte gives two characters and a
    remainder of two bytes gives three; no padding is written. *)
Fixpoint RawURLEncodeToString (src : list byte) : string :=
  match src with
  | [] => EmptyString
  | [b0] =>
      let val := N.shiftl (Byte.to_N b0) 16 in
      String (encode (N.shiftr val 18)) (String (encode (N.shiftr val 12)) EmptyString)
  | [b0; b1] =>
      let val := N.lor (N.shiftl (Byte.to_N b0) 16) (N.shiftl (Byte.to_N b1) 8) in
      String (encode (N.shiftr val 18)) (String (encode (N.shiftr val 12))
        (String (encode (N.shiftr val 6)) EmptyString))
  | b0 :: b1 :: b2 :: rest =>
      let val := N.lor (N.shiftl (Byte.to_N b0) 16)
                   (N.lor (N.shiftl (Byte.to_N b1) 8) (Byte.to_N b2)) in
      String (encode (N.shiftr val 18)) (String (encode (N.shiftr val 12))
        (String (encode (N.shiftr val 6)) (String (encode val)
          (RawURLEncodeToString rest))))
  end.

End Base64.

Module Uuid.

(** [uuid.UUID] is a [[16]byte]. *)
Definition UUID : Type := list byte.

Definition hexdigits : string := "0123456789abcdef".

Definition hexdigit (v : N) : ascii :=
  match String.get (N.to_nat (N.land v 15)) hexdigits with
  | Some c => c
  | None => "0"%char
  end.

(** [hex.Encode] *)
Fixpoint hexEncode (src : list byte) : string :=
  match src with
  | [] => EmptyString
  | b :: rest =>
      String (hexdigit (N.shiftr (Byte.to_N b) 4))
        (String (hexdigit (Byte.to_N b)) (hexEncode rest))
  end.

(** [UUID.String]: xxxxxxxx-xxxx-xxxx-xxxx-xxxxxxxxxxxx *)
Definition String (u : UUID) : string :=
  hexEncode (take 4 u) +:+ "-" +:+
  hexEncode (take 2 (drop 4 u)) +:+ "-" +:+
  hexEncode (take 2 (drop 6 u)) +:+ "-" +:+
  hexEncode (take 2 (drop 8 u)) +:+ "-" +:+
  hexEncode (drop 10 u).

End Uuid.
Abbreviation UUID := Uuid.UUID.

Module Fmt.

(** [fmt.Sprintf] restricted to the verb the code uses, [%s], applied to
    operands already rendered to text (a [Stringer] operand such as a
    UUID is rendered by its [String] method). *)
Fixpoint Sprintf (format : string) (args : list string) : string :=
  match format with
  | EmptyString => EmptyString
  | String c rest =>
      match rest with
      | String v rest' =>
          if (Ascii.eqb c "%" && Ascii.eqb v "s")%bool then
            match args with
            | a :: args' => a +:+ Sprintf rest' args'
            | [] => "%!s(MISSING)" +:+ Sprintf rest' []
            end
          else String c (Sprintf rest args)
      | EmptyString => String c EmptyString
      end
  end.

End Fmt.

(** The key derivation of the S3 revision of assets.go: a random name. *)
Module AssetsRandom.

(** [rand.Read(base)] on the 32-byte slice is an input of the model:
    [None] when it reports an error, [Some base] with the filled slice
    otherwise. *)
Definition getAssetPath (randRead : option (list byte)) (mediaType : string)
  : outcome string :=
  match randRead with
  | None => Panicked "failed to generate random bytes"
  | Some base =>
      let id := Base64.RawURLEncodeToString base in
      let ext := mediaTypeToExt mediaType in
      Returned (Fmt.Sprintf "%s%s" [id; ext])
  end.

End AssetsRandom.

(** The key derivation of the local-disk revision of assets.go: the name
    is the video's identifier. *)
Module AssetsByID.

Definition getAssetPath (videoID : UUID) (mediaType : string) : string :=
  let ext := mediaTypeToExt mediaType in
  Fmt.Sprintf "%s%s" [Uuid.String videoID; ext].

End AssetsByID.


(** ** Go's [int] *)

Module GoInt.

Definition min_int : Z := - 2 ^ 63.
Definition max_int : Z := 2 ^ 63 - 1.

Definition in_range (z : Z) : bool := (min_int <=? z) && (z <=? max_int).

(** Two's-complement wrap-around of a mathematical result. *)
Definition wrap (z : Z) : Z := (z + 2 ^ 63) mod 2 ^ 64 - 2 ^ 63.

Definition mul (a b : Z) : Z := wrap (a * b).

(** Go's [/] truncates toward zero. *)
Definition div (a b : Z) : Z := wrap (Z.quot a b).

End GoInt.

(** ** handler_upload_video.go: media inspection *)

(** One element of [output.Streams]. *)
Record Stream : Type := { Width : Z; Height : Z }.

(** One object of the "streams" array as ffprobe printed it: the integer
    members "width" and "height" may be absent (audio and subtitle streams
    have none). *)
Record StreamJSON : Type := { json_width : option Z; json_height : option Z }.

(** What [cmd.Run()] of ffprobe left behind: its error, if any, and the
    captured standard output, which is either not a JSON document of the
    expected shape or an object whose "streams" member lists stream
    objects (an absent "streams" member is the empty list). *)
Inductive ProbeStdout : Type :=
| NotJSON (err : string)
| StreamsDoc (streams : list StreamJSON).

Record FFprobeRun : Type := { probe_err : option string; probe_stdout : ProbeStdout }.

Module Json.

(** Decoding an optional JSON integer into an [int] field: an absent
    member leaves the field at its zero value; a number that does not
    fit [int] is an error. *)
Definition decodeInt (field : string) (member : option Z) : result Z :=
  match member with
  | None => Ok 0
  | Some n =>
      if GoInt.in_range n then Ok n
      else Err ("json: cannot unmarshal number into Go struct field ." +:+ field +:+ " of type int")
  end.

Definition decodeStream (j : StreamJSON) : result Stream :=
  match decodeInt "width" (json_width j) with
  | Err e => Err e
  | Ok w =>
      match decodeInt "height" (json_height j) with
      | Err e => Err e
      | Ok h => Ok {| Width := w; Height := h |}
      end
  end.

Fixpoint decodeStreams (js : list StreamJSON) : result (list Stream) :=
  match js with
  | [] => Ok []
  | j :: js' =>
      match decodeStream j with
      | Err e => Err e
      | Ok s =>
          match decodeStreams js' with
          | Err e => Err e
          | Ok ss => Ok (s :: ss)
          end
      end
  end.

(** [json.Unmarshal(stdout.Bytes(), &output)] *)
Definition Unmarshal (stdout : ProbeStdout) : result (list Stream) :=
  match stdout with
  | NotJSON e => Err e
  | StreamsDoc js => decodeStreams js
  end.

End Json.

(** The comparison chain that ends [getVideoAspectRatio], on the decoded
    width and height of the first stream. *)
Definition aspectRatioOf (width height : Z) : string :=
  if width =? GoInt.div (GoInt.mul 16 height) 9 then "16:9"%string
  else if height =? GoInt.div (GoInt.mul 16 width) 9 then "9:16"%string
  else "other"%string.

(** [getVideoAspectRatio]; the argument is what running ffprobe on
    [filePath] produced. *)
Definition getVideoAspectRatio (run : FFprobeRun) : result string :=
  match probe_err run with
  | Some err => Err ("ffprobe error: " +:+ err)
  | None =>
      match Json.Unmarshal (probe_stdout run) with
      | Err err => Err ("could not parse ffprobe output: " +:+ err)
      | Ok streams =>
          match streams with
          | [] => Err "no video streams found"
          | first :: _ => Ok (aspectRatioOf (Width first) (Height first))
          end
      end
  end.

(** The [switch aspectRatio] of [handlerUploadVideo]. *)
Definition directoryOf (aspectRatio : string) : string :=
  if String.eqb aspectRatio "16:9" then "landscape"%string
  else if String.eqb aspectRatio "9:16" then "portrait"%string
  else "other"%string.


(** ** internal/auth *)

Module Auth.

(** [http.Header], read through [Get]: the empty string when absent. *)
Definition Header : Type := string -> string.

Definition GetBearerToken (headers : Header) : result string :=
  let authHeader := headers "Authorization"%string in
  if String.eqb authHeader "" then Err "no auth header included in request"
  else
    let splitAuth := GoStrings.Split authHeader " "%char in
    if ((length splitAuth <? 2)%nat || negb (String.eqb (nth 0 splitAuth EmptyString) "Bearer"))%bool
    then Err "malformed authorization header"
    else Ok (nth 1 splitAuth EmptyString).

End Auth.

(** ** The world the handlers act on *)

#[global] Instance byte_eq_dec : EqDecision byte := Byte.byte_eq_dec.
#[global] Instance byte_countable : Countable byte :=
  inj_countable Byte.to_N Byte.of_N Byte.of_to_N.

(** Modelled from the spec: [database.Video] is declared in
    internal/database, outside the files at hand; these are the owning
    record's identifier, its owner (the authorization anchor) and the two
    URL fields the handlers write. *)
Record Video : Type := {
  ID : UUID;
  UserID : UUID;
  ThumbnailURL : option string;
  VideoURL : option string
}.

Definition withVideoURL (url : string) (v : Video) : Video :=
  {| ID := ID v; UserID := UserID v; ThumbnailURL := ThumbnailURL v; VideoURL := Some url |}.

Definition withThumbnailURL (url : string) (v : Video) : Video :=
  {| ID := ID v; UserID := UserID v; ThumbnailURL := Some url; VideoURL := VideoURL v |}.

(** Modelled from the spec: [apiConfig] is declared in main.go, outside
    the files at hand; these are the fields the handlers and assets.go
    read. *)
Record apiConfig : Type := {
  jwtSecret : string;
  s3Bucket : string;
  s3Region : string;
  s3CfDistribution : string;
  assetsRoot : string;
  port : string
}.

(** An entry of the global [videoThumbnails] map. *)
Record thumbnail : Type := { data : list byte; mediaType : string }.

Record PutObjectInput : Type := {
  Bucket : string;
  Key : string;
  Body : list byte;
  ContentType : string
}.

(** The local disk (path to contents), the names of the files created so
    far (a trace: entries are never dropped), the open file handles, the
    [PutObject] calls issued to the object store, the rows written through
    [UpdateVideo], and the global thumbnail map. *)
Record World : Type := {
  disk : gmap string (list byte);
  created : list string;
  openFiles : list string;
  s3Puts : list PutObjectInput;
  dbUpdates : list Video;
  videoThumbnails : gmap UUID thumbnail
}.

Definition setDisk (d : gmap string (list byte)) (w : World) : World :=
  {| disk := d; created := created w; openFiles := openFiles w; s3Puts := s3Puts w;
     dbUpdates := dbUpdates w; videoThumbnails := videoThumbnails w |}.

Definition setCreated (c : list string) (w : World) : World :=
  {| disk := disk w; created := c; openFiles := openFiles w; s3Puts := s3Puts w;
     dbUpdates := dbUpdates w; videoThumbnails := videoThumbnails w |}.

Definition setOpenFiles (o : list string) (w : World) : World :=
  {| disk := disk w; created := created w; openFiles := o; s3Puts := s3Puts w;
     dbUpdates := dbUpdates w; videoThumbnails := videoThumbnails w |}.

Definition setS3Puts (p : list PutObjectInput) (w : World) : World :=
  {| disk := disk w; created := created w; openFiles := openFiles w; s3Puts := p;
     dbUpdates := dbUpdates w; videoThumbnails := videoThumbnails w |}.

Definition setDbUpdates (u : list Video) (w : World) : World :=
  {| disk := disk w; created := created w; openFiles := openFiles w; s3Puts := s3Puts w;
     dbUpdates := u; videoThumbnails := videoThumbnails w |}.

Definition setVideoThumbnails (t : gmap UUID thumbnail) (w : World) : World :=
  {| disk := disk w; created := created w; openFiles := openFiles w; s3Puts := s3Puts w;
     dbUpdates := dbUpdates w; videoThumbnails := t |}.

(** What the handler wrote to the [http.ResponseWriter]. *)
Inductive Response : Type :=
| respondWithError (code : Z) (msg : string)
| respondWithJSON (code : Z) (payload : Video).

Definition StatusOK : Z := 200.
Definition StatusBadRequest : Z := 400.
Definition StatusUnauthorized : Z := 401.
Definition StatusInternalServerError : Z := 500.

(** One part of the multipart form: its Content-Type header and bytes. *)
Record FilePart : Type := { partContentType : string; partData : list byte }.

Record Request : Type := {
  PathValue : string -> string;
  Header : Auth.Header;
  FormFile : string -> option FilePart
}.

(** What ffmpeg left behind: the error of [cmd.Run()], if any, the
    captured standard error, and the bytes of the output file if it wrote
    one. *)
Record FFmpegRun : Type := {
  ffmpeg_err : option string;
  ffmpeg_stderr : string;
  ffmpeg_output : option (list byte)
}.

(** The collaborators of one request: libraries, external tools and
    services whose answers the handlers only branch on.  A [None] or
    [false] answer is the call's error. *)
Record Env : Type := {
  uuid_Parse : string -> option UUID;
  ValidateJWT : string -> string -> option UUID;
  GetVideo : UUID -> option Video;
  UpdateVideo : Video -> bool;
  mime_ParseMediaType : string -> option string;
  os_CreateTemp : string -> string -> option string;
  (** [io.Copy] into a local file: [None] when it completes, [Some n]
      when it fails after writing [n] bytes. *)
  io_Copy_fault : option nat;
  Seek : bool;
  io_ReadAll : bool;
  os_Create : string -> bool;
  os_Open : string -> bool;
  ffprobe : string -> FFprobeRun;
  ffmpeg : string -> string -> FFmpegRun;
  rand_Read : option (list byte);
  PutObject : PutObjectInput -> bool
}.

(** ** Handler bodies: state, early return, panic and [defer] *)

Inductive Deferred : Type :=
| DeferRemove (name : string)
| DeferClose (name : string).

(** The running handler: the world and the stack of deferred calls, most
    recent first. *)
Record Frame : Type := { world : World; deferred : list Deferred }.

Inductive Step (A : Type) : Type :=
| Next (a : A)
| Exit (r : Response)
| Panic (msg : string).
Arguments Next {A} a.
Arguments Exit {A} r.
Arguments Panic {A} msg.

Definition Handler (A : Type) : Type := Frame -> Step A * Frame.

Definition ret {A} (a : A) : Handler A := fun f => (Next a, f).

Definition bind {A B} (c : Handler A) (k : A -> Handler B) : Handler B :=
  fun f =>
    match c f with
    | (Next a, f') => k a f'
    | (Exit r, f') => (Exit r, f')
    | (Panic m, f') => (Panic m, f')
    end.

Notation "x <- c ;; k" := (bind c (fun x => k))
  (at level 100, c at next level, right associativity).
Notation "c ;;; k" := (bind c (fun _ => k))
  (at level 100, right associativity).

(** [respondWithError(...); return] *)
Definition exit {A} (r : Response) : Handler A := fun f => (Exit r, f).

Definition panic {A} (msg : string) : Handler A := fun f => (Panic msg, f).

Definition exitIf (cond : bool) (r : Response) : Handler unit :=
  if cond then exit r else ret tt.

Definition orExit {A} (o : option A) (r : Response) : Handler A :=
  match o with Some a => ret a | None => exit r end.

Definition okOrExit {A} (o : result A) (r : Response) : Handler A :=
  match o with Ok a => ret a | Err _ => exit r end.

Definition defer (d : Deferred) : Handler unit :=
  fun f => (Next tt, {| world := world f; deferred := d :: deferred f |}).

Definition modify (g : World -> World) : Handler unit :=
  fun f => (Next tt, {| world := g (world f); deferred := deferred f |}).

Definition gets {A} (g : World -> A) : Handler A :=
  fun f => (Next (g (world f)), f).

(** *** File system and handles *)

Definition writeFile (name : string) (contents : list byte) (w : World) : World :=
  setDisk (<[name := contents]> (disk w)) w.

(** A file comes into being (or is truncated and rewritten) under [name]. *)
Definition createFile (name : string) (contents : list byte) (w : World) : World :=
  setCreated (created w ++ [name]) (writeFile name contents w).

Definition os_Remove (name : string) (w : World) : World :=
  setDisk (delete name (disk w)) w.

Definition openHandle (name : string) (w : World) : World :=
  setOpenFiles (name :: openFiles w) w.

Definition Close (name : string) (w : World) : World :=
  setOpenFiles (List.filter (fun n => negb (String.eqb n name)) (openFiles w)) w.

Definition readFile (name : string) (w : World) : list byte :=
  match disk w !! name with Some contents => contents | None => [] end.

Definition runDeferredCall (w : World) (d : Deferred) : World :=
  match d with
  | DeferRemove name => os_Remove name w
  | DeferClose name => Close name w
  end.

(** Deferred calls run last-in first-out when the function returns or
    panics. *)
Definition runDeferred (ds : list Deferred) (w : World) : World :=
  fold_left runDeferredCall ds w.

(** Serving one request: run the body, then its deferred calls. *)
Definition serve (body : Handler Response) (w : World) : outcome Response * World :=
  match body {| world := w; deferred := [] |} with
  | (Next r, f) => (Returned r, runDeferred (deferred f) (world f))
  | (Exit r, f) => (Returned r, runDeferred (deferred f) (world f))
  | (Panic m, f) => (Panicked m, runDeferred (deferred f) (world f))
  end.

(** [path.Join(a, b)] and [filepath.Join(a, b)] for two non-empty
    elements already in clean form, which is how the handlers call
    them. *)
Definition path_Join (a b : string) : string := a +:+ "/" +:+ b.

(** *** assets.go, methods of [apiConfig] *)

Definition getObjectURL (cfg : apiConfig) (key : string) : string :=
  Fmt.Sprintf "https://%s.s3.%s.amazonaws.com/%s" [s3Bucket cfg; s3Region cfg; key].

Definition getAssetDiskPath (cfg : apiConfig) (assetPath : string) : string :=
  path_Join (assetsRoot cfg) assetPath.

Definition getAssetURL (cfg : apiConfig) (assetPath : string) : string :=
  Fmt.Sprintf "http://localhost:%s/assets/%s" [port cfg; assetPath].

(** ** handler_upload_video.go *)

(** [processVideoForFastStart]: ffmpeg writes (or fails to write)
    [inputFilePath.processing]; the file must then exist and be
    non-empty. *)
Definition processVideoForFastStart (env : Env) (inputFilePath : string) (w : World)
  : result string * World :=
  let processedFilePath := Fmt.Sprintf "%s.processing" [inputFilePath] in
  let run := ffmpeg env inputFilePath processedFilePath in
  let w' := match ffmpeg_output run with
            | Some bytes => createFile processedFilePath bytes w
            | None => w
            end in
  match ffmpeg_err run with
  | Some err => (Err ("error processing video: " +:+ ffmpeg_stderr run +:+ ", " +:+ err), w')
  | None =>
      match disk w' !! processedFilePath with
      | None => (Err "could not stat processed file: no such file or directory", w')
      | Some contents =>
          if (length contents =? 0)%nat then (Err "processed file is empty", w')
          else (Ok processedFilePath, w')
      end
  end.

(** The three revisions of [handlerUploadVideo] kept in the file: upload
    of the staged file to S3; the same under an orientation prefix; the
    fast-start copy under an orientation prefix, served from the CDN. *)
Inductive Revision : Type := RevS3 | RevAspectRatio | RevFastStart.

(** [os.CreateTemp(dir, pattern)]: the new, empty file is open. *)
Definition CreateTemp (env : Env) (dir pattern : string) (r : Response) : Handler string :=
  name <- orExit (os_CreateTemp env dir pattern) r ;;
  modify (createFile name []) ;;;
  modify (openHandle name) ;;;
  ret name.

(** [io.Copy(dst, src)] into the file [dst]. *)
Definition Copy (env : Env) (dst : string) (src : list byte) (r : Response) : Handler unit :=
  match io_Copy_fault env with
  | None => modify (writeFile dst src)
  | Some n => modify (writeFile dst (take n src)) ;;; exit r
  end.

Definition callGetAssetPath (env : Env) (mediaType : string) : Handler string :=
  match AssetsRandom.getAssetPath (rand_Read env) mediaType with
  | Returned key => ret key
  | Panicked msg => panic msg
  end.

Definition callPutObject (env : Env) (input : PutObjectInput) (r : Response) : Handler unit :=
  modify (fun w => setS3Puts (s3Puts w ++ [input]) w) ;;;
  exitIf (negb (PutObject env input)) r.

Definition callUpdateVideo (env : Env) (video : Video) (r : Response) : Handler unit :=
  exitIf (negb (UpdateVideo env video)) r ;;;
  modify (fun w => setDbUpdates (dbUpdates w ++ [video]) w).

(** Lines shared by the three revisions: from the request to the staged
    temporary file, rewound to its start.  The 1 GB bound that
    [http.MaxBytesReader] puts on the body is felt in [FormFile], whose
    failure is the [None] answer. *)
Definition stageVideo (cfg : apiConfig) (env : Env) (r : Request)
  : Handler (Video * string * string) :=
  let videoIDString := PathValue r "videoID" in
  videoID <- orExit (uuid_Parse env videoIDString)
               (respondWithError StatusBadRequest "Invalid ID") ;;
  token <- okOrExit (Auth.GetBearerToken (Header r))
             (respondWithError StatusUnauthorized "Couldn't find JWT") ;;
  userID <- orExit (ValidateJWT env token (jwtSecret cfg))
              (respondWithError StatusUnauthorized "Couldn't validate JWT") ;;
  video <- orExit (GetVideo env videoID)
             (respondWithError StatusInternalServerError "Couldn't find video") ;;
  exitIf (bool_decide (UserID video <> userID))
    (respondWithError StatusUnauthorized "Not authorized to update this video") ;;;
  handler <- orExit (FormFile r "video")
               (respondWithError StatusBadRequest "Unable to parse form file") ;;
  modify (openHandle "video") ;;;
  defer (DeferClose "video") ;;;
  mediaType <- orExit (mime_ParseMediaType env (partContentType handler))
                 (respondWithError StatusBadRequest "Invalid Content-Type") ;;
  exitIf (negb (String.eqb mediaType "video/mp4"))
    (respondWithError StatusBadRequest "Invalid file type, only MP4 is allowed") ;;;
  tempFile <- CreateTemp env "" "tubely-upload.mp4"
                (respondWithError StatusInternalServerError "Could not create temp file") ;;
  defer (DeferRemove tempFile) ;;;
  defer (DeferClose tempFile) ;;;
  Copy env tempFile (partData handler)
    (respondWithError StatusInternalServerError "Could not write file to disk") ;;;
  exitIf (negb (Seek env))
    (respondWithError StatusInternalServerError "Could not reset file pointer") ;;;
  ret (video, mediaType, tempFile).

(** The orientation prefix chosen from the probe of the staged file. *)
Definition chooseDirectory (env : Env) (tempFile : string) : Handler string :=
  aspectRatio <- okOrExit (getVideoAspectRatio (ffprobe env tempFile))
                   (respondWithError StatusInternalServerError "Error determining aspect ratio") ;;
  ret (directoryOf aspectRatio).

Definition handlerUploadVideoBody (rev : Revision) (cfg : apiConfig) (env : Env) (r : Request)
  : Handler Response :=
  staged <- stageVideo cfg env r ;;
  let '(video, mediaType, tempFile) := staged in
  match rev with
  | RevS3 =>
      key <- callGetAssetPath env mediaType ;;
      body <- gets (readFile tempFile) ;;
      callPutObject env
        {| Bucket := s3Bucket cfg; Key := key; Body := body; ContentType := mediaType |}
        (respondWithError StatusInternalServerError "Error uploading file to S3") ;;;
      let url := getObjectURL cfg key in
      let video := withVideoURL url video in
      callUpdateVideo env video
        (respondWithError StatusInternalServerError "Couldn't update video") ;;;
      ret (respondWithJSON StatusOK video)
  | RevAspectRatio =>
      directory <- chooseDirectory env tempFile ;;
      key <- callGetAssetPath env mediaType ;;
      let key := path_Join directory key in
      body <- gets (readFile tempFile) ;;
      callPutObject env
        {| Bucket := s3Bucket cfg; Key := key; Body := body; ContentType := mediaType |}
        (respondWithError StatusInternalServerError "Error uploading file to S3") ;;;
      let url := getObjectURL cfg key in
      let video := withVideoURL url video in
      callUpdateVideo env video
        (respondWithError StatusInternalServerError "Couldn't update video") ;;;
      ret (respondWithJSON StatusOK video)
  | RevFastStart =>
      directory <- chooseDirectory env tempFile ;;
      key <- callGetAssetPath env mediaType ;;
      let key := path_Join directory key in
      processed <- (fun f =>
                      let '(res, w) := processVideoForFastStart env tempFile (world f) in
                      (Next res, {| world := w; deferred := deferred f |})) ;;
      processedFilePath <- okOrExit processed
                             (respondWithError StatusInternalServerError "Error processing video") ;;
      defer (DeferRemove processedFilePath) ;;;
      onDisk <- gets (fun w => bool_decide (is_Some (disk w !! processedFilePath))) ;;
      exitIf (negb (onDisk && os_Open env processedFilePath))
        (respondWithError StatusInternalServerError "Could not open processed file") ;;;
      modify (openHandle processedFilePath) ;;;
      defer (DeferClose processedFilePath) ;;;
      body <- gets (readFile processedFilePath) ;;
      callPutObject env
        {| Bucket := s3Bucket cfg; Key := key; Body := body; ContentType := mediaType |}
        (respondWithError StatusInternalServerError "Error uploading file to S3") ;;;
      let url := Fmt.Sprintf "https://%s/%s" [s3CfDistribution cfg; key] in
      let video := withVideoURL url video in
      callUpdateVideo env video
        (respondWithError StatusInternalServerError "Couldn't update video") ;;;
      ret (respondWithJSON StatusOK video)
  end.

Definition handlerUploadVideo (rev : Revision) (cfg : apiConfig) (env : Env) (r : Request)
  (w : World) : outcome Response * World :=
  serve (handlerUploadVideoBody rev cfg env r) w.

(** ** The thumbnail handler *)

(** The two revisions of [handlerUploadThumbnail]: the thumbnail kept in
    the global map, and the thumbnail written under the assets root. *)
Inductive ThumbnailRevision : Type := ThumbInMemory | ThumbOnDisk.

(** [os.Create(name)]: creates or truncates the file and leaves it open. *)
Definition Create (env : Env) (name : string) (r : Response) : Handler string :=
  exitIf (negb (os_Create env name)) r ;;;
  modify (createFile name []) ;;;
  modify (openHandle name) ;;;
  ret name.

(** Lines shared by the two revisions: from the request to the declared
    media type of the "thumbnail" part.  The result of
    [r.ParseMultipartForm(maxMemory)] is dropped by the code; a form that
    does not parse shows in [FormFile]. *)
Definition receiveThumbnail (cfg : apiConfig) (env : Env) (r : Request)
  : Handler (UUID * UUID * FilePart * string) :=
  let videoIDString := PathValue r "videoID" in
  videoID <- orExit (uuid_Parse env videoIDString)
               (respondWithError StatusBadRequest "Invalid ID") ;;
  token <- okOrExit (Auth.GetBearerToken (Header r))
             (respondWithError StatusUnauthorized "Couldn't find JWT") ;;
  userID <- orExit (ValidateJWT env token (jwtSecret cfg))
              (respondWithError StatusUnauthorized "Couldn't validate JWT") ;;
  header <- orExit (FormFile r "thumbnail")
              (respondWithError StatusBadRequest "Unable to parse form file") ;;
  modify (openHandle "thumbnail") ;;;
  defer (DeferClose "thumbnail") ;;;
  let mediaType := partContentType header in
  exitIf (String.eqb mediaType "")
    (respondWithError StatusBadRequest "Missing Content-Type for thumbnail") ;;;
  ret (videoID, userID, header, mediaType).

Definition handlerUploadThumbnailBody (rev : ThumbnailRevision) (cfg : apiConfig) (env : Env)
  (r : Request) : Handler Response :=
  received <- receiveThumbnail cfg env r ;;
  let '(videoID, userID, header, mediaType) := received in
  match rev with
  | ThumbOnDisk =>
      let assetPath := AssetsByID.getAssetPath videoID mediaType in
      let assetDiskPath := getAssetDiskPath cfg assetPath in
      dst <- Create env assetDiskPath
               (respondWithError StatusInternalServerError "Unable to create file on server") ;;
      defer (DeferClose dst) ;;;
      Copy env dst (partData header)
        (respondWithError StatusInternalServerError "Error saving file") ;;;
      video <- orExit (GetVideo env videoID)
                 (respondWithError StatusInternalServerError "Couldn't find video") ;;
      exitIf (bool_decide (UserID video <> userID))
        (respondWithError StatusUnauthorized "Not authorized to update this video") ;;;
      let url := getAssetURL cfg assetPath in
      let video := withThumbnailURL url video in
      callUpdateVideo env video
        (respondWithError StatusInternalServerError "Couldn't update video") ;;;
      ret (respondWithJSON StatusOK video)
  | ThumbInMemory =>
      exitIf (negb (io_ReadAll env))
        (respondWithError StatusInternalServerError "Error reading file") ;;;
      let data := partData header in
      video <- orExit (GetVideo env videoID)
                 (respondWithError StatusInternalServerError "Couldn't find video") ;;
      exitIf (bool_decide (UserID video <> userID))
        (respondWithError StatusUnauthorized "Not authorized to update this video") ;;;
      modify (fun w => setVideoThumbnails
                         (<[videoID := {| data := data; mediaType := mediaType |}]>
                            (videoThumbnails w)) w) ;;;
      let url := Fmt.Sprintf "http://localhost:%s/api/thumbnails/%s"
                   [port cfg; Uuid.String videoID] in
      let video := withThumbnailURL url video in
      if UpdateVideo env video then
        modify (fun w => setDbUpdates (dbUpdates w ++ [video]) w) ;;;
        ret (respondWithJSON StatusOK video)
      else
        modify (fun w => setVideoThumbnails (delete videoID (videoThumbnails w)) w) ;;;
        exit (respondWithError StatusInternalServerError "Couldn't update video")
  end.

Definition handlerUploadThumbnail (rev : ThumbnailRevision) (cfg : apiConfig) (env : Env)
  (r : Request) (w : World) : outcome Response * World :=
  serve (handlerUploadThumbnailBody rev cfg env r) w.

(** ** Canned collaborators for concrete runs *)

Module Fixture.

Definition alice : UUID := repeat x0a 16.
Definition bob : UUID := repeat x0b 16.
Definition videoID : UUID :=
  [x12; x34; x56; x78; x9a; xbc; xde; xf0; x12; x34; x56; x78; x9a; xbc; xde; xf0].

Definition alicesVideo : Video :=
  {| ID := videoID; UserID := alice; ThumbnailURL := None; VideoURL := None |}.

Definition cfg : apiConfig :=
  {| jwtSecret := "secret"; s3Bucket := "tubely"; s3Region := "us-east-2";
     s3CfDistribution := "d111.cloudfront.net"; assetsRoot := "assets"; port := "8091" |}.

Definition payload : list byte := [x00; x00; x00; x18; x66; x74; x79; x70].

(** A request for Alice's video carrying [token], with a "video" part
    declared as [videoType] and a "thumbnail" part. *)
Definition upload (token videoType : string) : Request :=
  {| PathValue := fun name =>
       if String.eqb name "videoID" then Uuid.String videoID else EmptyString;
     Header := fun name =>
       if String.eqb name "Authorization" then "Bearer " +:+ token else EmptyString;
     FormFile := fun name =>
       if String.eqb name "video"
       then Some {| partContentType := videoType; partData := payload |}
       else if String.eqb name "thumbnail"
       then Some {| partContentType := "image/png"; partData := payload |}
       else None |}.

Definition request (token : string) : Request := upload token "video/mp4".

(** ffprobe finds one stream of the given geometry. *)
Definition probeOf (width height : Z) : FFprobeRun :=
  {| probe_err := None;
     probe_stdout :=
       StreamsDoc [ {| json_width := Some width; json_height := Some height |} ] |}.

Definition landscapeProbe : FFprobeRun := probeOf 1920 1080.

(** Everything works; the entropy source, the prober and the transcoder
    behave as [entropy], [probe] and [transcode] say. *)
Definition envWith (entropy : option (list byte)) (probe : FFprobeRun) (transcode : FFmpegRun)
  : Env :=
  {| uuid_Parse := fun s => if String.eqb s (Uuid.String videoID) then Some videoID else None;
     ValidateJWT := fun token _ =>
       if String.eqb token "alice-token" then Some alice
       else if String.eqb token "bob-token" then Some bob
       else None;
     GetVideo := fun id => if bool_decide (id = videoID) then Some alicesVideo else None;
     UpdateVideo := fun _ => true;
     mime_ParseMediaType := fun s => Some s;
     os_CreateTemp := fun _ pattern => Some ("/tmp/" +:+ pattern +:+ "1234");
     io_Copy_fault := None;
     Seek := true;
     io_ReadAll := true;
     os_Create := fun _ => true;
     os_Open := fun _ => true;
     ffprobe := fun _ => probe;
     ffmpeg := fun _ _ => transcode;
     rand_Read := entropy;
     PutObject := fun _ => true |}.

Definition env (transcode : FFmpegRun) : Env :=
  envWith (Some (repeat x00 32)) landscapeProbe transcode.

Definition goodTranscode : FFmpegRun :=
  {| ffmpeg_err := None; ffmpeg_stderr := ""; ffmpeg_output := Some payload |}.

(** ffmpeg exits successfully and leaves an empty output file. *)
Definition emptyTranscode : FFmpegRun :=
  {| ffmpeg_err := None; ffmpeg_stderr := ""; ffmpeg_output := Some [] |}.

(** ffmpeg fails after it has written part of the output file. *)
Definition brokenTranscode : FFmpegRun :=
  {| ffmpeg_err := Some "exit status 1"; ffmpeg_stderr := "Invalid data found";
     ffmpeg_output := Some [x00; x00] |}.

Definition emptyWorld : World :=
  {| disk := ∅; created := []; openFiles := []; s3Puts := []; dbUpdates := [];
     videoThumbnails := ∅ |}.

End Fixture.

(** ** internal/auth: API keys and refresh tokens *)

Module AuthTokens.

(** [GetAPIKey] *)
Definition GetAPIKey (headers : Auth.Header) : result string :=
  let authHeader := headers "Authorization"%string in
  if String.eqb authHeader "" then Err "no auth header included in request"
  else
    let splitAuth := GoStrings.Split authHeader " "%char in
    if ((length splitAuth <? 2)%nat || negb (String.eqb (nth 0 splitAuth EmptyString) "ApiKey"))%bool
    then Err "malformed authorization header"
    else Ok (nth 1 splitAuth EmptyString).

(** [MakeRefreshToken]; the argument is what [rand.Read(token)] did to the
    32-byte slice: its error, or the filled slice.  [hex.EncodeToString]
    is [Uuid.hexEncode]. *)
Definition MakeRefreshToken (randRead : result (list byte)) : result string :=
  match randRead with
  | Err err => Err err
  | Ok token => Ok (Uuid.hexEncode token)
  end.

End AuthTokens.

(** ** Auxiliary definitions for the statements *)

(** What follows the first occurrence of [sep] in [s]. *)
Fixpoint afterSep (s : string) (sep : ascii) : string :=
  match s with
  | EmptyString => EmptyString
  | String c rest => if Ascii.eqb c sep then rest else afterSep rest sep
  end.

(** A probe that ran without error and printed the given stream objects. *)
Definition probed (streams : list StreamJSON) : FFprobeRun :=
  {| probe_err := None; probe_stdout := StreamsDoc streams |}.

(** The keys put to the object store when Alice uploads a video that
    ffprobe reports as [width] x [height]. *)
Definition uploadedKeys (rev : Revision) (width height : Z) : list string :=
  List.map Key
    (s3Puts (handlerUploadVideo rev Fixture.cfg
               (Fixture.envWith (Some (repeat x00 32)) (Fixture.probeOf width height)
                  Fixture.goodTranscode)
               (Fixture.request "alice-token") Fixture.emptyWorld).2).

(** What precedes the first occurrence of [sep] in [s]. *)
Fixpoint beforeSep (s : string) (sep : ascii) : string :=
  match s with
  | EmptyString => EmptyString
  | String c rest => if Ascii.eqb c sep then EmptyString else String c (beforeSep rest sep)
  end.

(** The position of [c] in [alphabet]. *)
Fixpoint indexOf (c : ascii) (alphabet : string) : option N :=
  match alphabet with
  | EmptyString => None
  | String d rest =>
      if Ascii.eqb c d then Some 0%N
      else match indexOf c rest with
           | Some i => Some (N.succ i)
           | None => None
           end
  end.

(** The byte written as the two hexadecimal digits [hi], [lo]. *)
Definition hexByte (hi lo : ascii) : option byte :=
  match indexOf hi Uuid.hexdigits, indexOf lo Uuid.hexdigits with
  | Some h, Some l => Byte.of_N (16 * h + l)
  | _, _ => None
  end.

(** Reading back lower-case hexadecimal text. *)
Fixpoint hexDecode (s : string) : option (list byte) :=
  match s with
  | EmptyString => Some []
  | String hi rest =>
      match rest with
      | String lo rest' =>
          match hexByte hi lo, hexDecode rest' with
          | Some b, Some bs => Some (b :: bs)
          | _, _ => None
          end
      | EmptyString => None
      end
  end.

(** The six-bit value a character of the URL-safe alphabet stands for. *)
Definition sextet (c : ascii) : option N := indexOf c Base64.encodeURL.

(** The bytes spelled by consecutive six-bit values. *)
Definition byte0 (s0 s1 : N) : option byte :=
  Byte.of_N (N.lor (N.shiftl s0 2) (N.shiftr s1 4)).

Definition byte1 (s1 s2 : N) : option byte :=
  Byte.of_N (N.lor (N.shiftl (N.land s1 15) 4) (N.shiftr s2 2)).

Definition byte2 (s2 s3 : N) : option byte :=
  Byte.of_N (N.lor (N.shiftl (N.land s2 3) 6) s3).

(** Reading back unpadded URL-safe base64 text. *)
Fixpoint base64Decode (s : string) : option (list byte) :=
  match s with
  | EmptyString => Some []
  | String c0 (String c1 EmptyString) =>
      match sextet c0, sextet c1 with
      | Some s0, Some s1 =>
          match byte0 s0 s1 with Some b0 => Some [b0] | None => None end
      | _, _ => None
      end
  | String c0 (String c1 (String c2 EmptyString)) =>
      match sextet c0, sextet c1, sextet c2 with
      | Some s0, Some s1, Some s2 =>
          match byte0 s0 s1, byte1 s1 s2 with
          | Some b0, Some b1 => Some [b0; b1]
          | _, _ => None
          end
      | _, _, _ => None
      end
  | String c0 (String c1 (String c2 (String c3 rest))) =>
      match sextet c0, sextet c1, sextet c2, sextet c3 with
      | Some s0, Some s1, Some s2, Some s3 =>
          match byte0 s0 s1, byte1 s1 s2, byte2 s2 s3, base64Decode rest with
          | Some b0, Some b1, Some b2, Some bs => Some (b0 :: b1 :: b2 :: bs)
          | _, _, _, _ => None
          end
      | _, _, _, _ => None
      end
  | _ => None
  end.

(** The 24-bit group of three bytes, as the encoder builds it. *)
Definition group (b0 b1 b2 : byte) : N :=
  N.lor (N.shiftl (Byte.to_N b0) 16) (N.lor (N.shiftl (Byte.to_N b1) 8) (Byte.to_N b2)).

(** The public URL a revision of [handlerUploadVideo] records for [key]. *)
Definition videoURL (rev : Revision) (cfg : apiConfig) (key : string) : string :=
  match rev with
  | RevFastStart => Fmt.Sprintf "https://%s/%s" [s3CfDistribution cfg; key]
  | _ => getObjectURL cfg key
  end.

(** The public URL a revision of [handlerUploadThumbnail] records. *)
Definition thumbnailURL (trev : ThumbnailRevision) (cfg : apiConfig) (videoID : UUID)
  (mediaType : string) : string :=
  match trev with
  | ThumbOnDisk => getAssetURL cfg (AssetsByID.getAssetPath videoID mediaType)
  | ThumbInMemory =>
      Fmt.Sprintf "http://localhost:%s/api/thumbnails/%s" [port cfg; Uuid.String videoID]
  end.

(** What a successful video upload leaves behind: the caller owns the
    record, one object was put and accepted, and [payload], the record
    with the object's URL, was written to the database. *)
Definition videoPersisted (rev : Revision) (cfg : apiConfig) (env : Env) (r : Request)
  (w w' : World) (payload : Video) : Prop :=
  exists videoID token video part input,
    uuid_Parse env (PathValue r "videoID") = Some videoID /\
    Auth.GetBearerToken (Header r) = Ok token /\
    ValidateJWT env token (jwtSecret cfg) = Some (UserID video) /\
    GetVideo env videoID = Some video /\
    FormFile r "video" = Some part /\
    PutObject env input = true /\
    s3Puts w' = s3Puts w ++ [input] /\
    match rev with
    | RevFastStart => Body input <> []
    | _ => Body input = partData part
    end /\
    payload = withVideoURL (videoURL rev cfg (Key input)) video /\
    UpdateVideo env payload = true /\
    dbUpdates w' = dbUpdates w ++ [payload].


(** ** Proof tools *)

(** Unfold a handler down to the answers of its collaborators. *)
Ltac run_handler :=
  cbv beta iota zeta delta
    [handlerUploadVideo handlerUploadThumbnail serve handlerUploadVideoBody
     handlerUploadThumbnailBody stageVideo receiveThumbnail chooseDirectory
     CreateTemp Create Copy callGetAssetPath callPutObject callUpdateVideo
     processVideoForFastStart
     bind ret exit panic exitIf orExit okOrExit defer modify gets
     world deferred].

(** Case analysis on the answer of the next collaborator consulted, in
    program order. *)
Ltac next_answer :=
  match goal with
  | |- context [match ?x with _ => _ end] =>
      lazymatch x with
      | context [match _ with _ => _ end] => fail
      | _ => destruct x eqn:?
      end
  end.

Ltac all_answers :=
  repeat (next_answer; cbv beta iota zeta; try discriminate); simplify_eq; cbn.

Ltac lookup_disk :=
  repeat (rewrite lookup_delete || rewrite lookup_insert);
  repeat case_decide; try reflexivity; try assumption; try congruence.

(** Facts checked on each of the 256 bytes. *)
Ltac bytewise b := destruct b; reflexivity.

(** Projections of a world built by the handlers' steps. *)
Ltac world_fields :=
  cbn [disk created openFiles s3Puts dbUpdates videoThumbnails
       Close os_Remove createFile writeFile openHandle
       setDisk setCreated setOpenFiles setS3Puts setDbUpdates setVideoThumbnails].

(** Case analysis as [all_answers], with the world's fields kept in
    normal form so that equal lookups are recognised. *)
Ltac all_answers_on_disk :=
  repeat (next_answer; cbv beta iota zeta;
          cbn [disk createFile writeFile setDisk setCreated setOpenFiles openHandle
               setS3Puts readFile] in *;
          try discriminate);
  simplify_eq.

(** Case analysis on every answer, then the final world with its deferred
    calls run, field by field. *)
Ltac all_answers_then_fields :=
  repeat (next_answer; cbv beta iota zeta; try discriminate);
  cbn [fst snd runDeferred fold_left runDeferredCall]; world_fields.

(** The handles left after the deferred [Close] calls. *)
Ltac close_handles :=
  repeat (cbn [List.filter negb];
          rewrite ?String.eqb_refl;
          try match goal with
              | |- context [String.eqb ?a ?b] => destruct (String.eqb a b)
              end);
  try reflexivity.

(** Quotient and remainder of a side scaled by 16 and divided by 9. *)
Ltac scaled_division x :=
  pose proof (Z.div_mod (16 * x) 9 ltac:(lia));
  pose proof (Z.mod_pos_bound (16 * x) 9 ltac:(lia)).

(** * Properties *)

(** ** Strings *)

Lemma append_empty_r (s : string) : s +:+ "" = s.
Proof.
  induction s as [|c s IH]; [reflexivity|].
  change (String c s +:+ "") with (String c (s +:+ "")). now rewrite IH.
Qed.

Lemma Split_length (s : string) (sep : ascii) :
  length (GoStrings.Split s sep) = S (GoStrings.Count s sep).
Proof.
  induction s as [|c s IH]; simpl; [reflexivity|].
  destruct (Ascii.eqb c sep); simpl.
  - now rewrite IH.
  - destruct (GoStrings.Split s sep) as [|piece pieces]; simpl in *; [discriminate | exact IH].
Qed.

Lemma Split_without_sep (s : string) (sep : ascii) :
  GoStrings.Count s sep = O -> GoStrings.Split s sep = [s].
Proof.
  induction s as [|c s IH]; simpl; [reflexivity|].
  destruct (Ascii.eqb c sep); simpl; [discriminate|].
  intros H. now rewrite (IH H).
Qed.

Lemma Split_second (s : string) (sep : ascii) :
  GoStrings.Count s sep = 1%nat -> nth 1 (GoStrings.Split s sep) EmptyString = afterSep s sep.
Proof.
  induction s as [|c s IH]; simpl; [discriminate|].
  destruct (Ascii.eqb c sep); simpl.
  - intros H. injection H as H. now rewrite (Split_without_sep _ _ H).
  - intros H. specialize (IH H).
    pose proof (Split_length s sep) as Hlen.
    destruct (GoStrings.Split s sep) as [|piece pieces]; simpl in *; [discriminate | exact IH].
Qed.

Lemma Sprintf_s_s (a b : string) : Fmt.Sprintf "%s%s" [a; b] = a +:+ b.
Proof.
  change (Fmt.Sprintf "%s%s" [a; b]) with (a +:+ (b +:+ "")).
  now rewrite append_empty_r.
Qed.

(** ** Asset key derivation *)

(** C5, as the specification states it, fails on a media type with an
    empty part: "image/" splits into the two parts "image" and the empty
    string, so [mediaTypeToExt] answers "." and not ".bin". *)
Lemma mediaTypeToExt_empty_subtype :
  GoStrings.Split "image/" slash = ["image"%string; EmptyString] /\
  mediaTypeToExt "image/" = "."%string /\
  mediaTypeToExt "image/" <> ".bin"%string.
Proof. repeat split; [reflexivity .. | discriminate]. Qed.

(** C5, amended: [mediaTypeToExt] answers ".bin" exactly when the media
    type does not hold one single "/", and otherwise "." followed by
    everything after that "/", verbatim and possibly empty.  So
    "image/png" gives ".png", "video/mp4" gives ".mp4", a string without
    "/" gives ".bin", more than one "/" gives ".bin", and "image/" gives
    ".". *)
Theorem mediaTypeToExt_spec :
  (forall mediaType : string,
      mediaTypeToExt mediaType =
        if Nat.eqb (GoStrings.Count mediaType slash) 1
        then "." +:+ afterSep mediaType slash
        else ".bin"%string) /\
  mediaTypeToExt "image/png" = ".png"%string /\
  mediaTypeToExt "video/mp4" = ".mp4"%string /\
  mediaTypeToExt "octet-stream" = ".bin"%string /\
  mediaTypeToExt "a/b/c" = ".bin"%string /\
  mediaTypeToExt "image/" = "."%string.
Proof.
  split; [|repeat split; reflexivity].
  intros mediaType. unfold mediaTypeToExt.
  rewrite Split_length.
  change (Nat.eqb (S (GoStrings.Count mediaType slash)) 2)
    with (Nat.eqb (GoStrings.Count mediaType slash) 1).
  destruct (Nat.eqb (GoStrings.Count mediaType slash) 1) eqn:E; [|reflexivity].
  apply Nat.eqb_eq in E. cbv [negb]. now rewrite (Split_second _ _ E).
Qed.

(** The standard test vectors of the encoding, without padding. *)
Example RawURLEncodeToString_vectors :
  Base64.RawURLEncodeToString [x4d; x61; x6e] = "TWFu"%string /\
  Base64.RawURLEncodeToString [x4d; x61] = "TWE"%string /\
  Base64.RawURLEncodeToString [x4d] = "TQ"%string /\
  Base64.RawURLEncodeToString [xfb; xff; x00; x41] = "-_8AQQ"%string /\
  String.length (Base64.RawURLEncodeToString (repeat xff 32)) = 43%nat.
Proof. repeat split. Qed.

(** C8: in the random form, a failing entropy source makes
    [getAssetPath] panic, whatever the media type; when the source
    delivers, the call returns the key (the unpadded URL-safe base64 text
    of the bytes followed by the extension), and nothing else can come
    out of it: the function has no error result. *)
Theorem getAssetPath_entropy_failure_is_fatal :
  forall mediaType : string,
    AssetsRandom.getAssetPath None mediaType = Panicked "failed to generate random bytes" /\
    (forall base : list byte,
        AssetsRandom.getAssetPath (Some base) mediaType =
          Returned (Base64.RawURLEncodeToString base +:+ mediaTypeToExt mediaType)) /\
    (forall randRead : option (list byte),
        match AssetsRandom.getAssetPath randRead mediaType with
        | Returned _ => is_Some randRead
        | Panicked _ => randRead = None
        end).
Proof.
  intros mediaType. split; [reflexivity|]. split.
  - intros base. unfold AssetsRandom.getAssetPath. now rewrite Sprintf_s_s.
  - intros [base|]; simpl; [now exists base | reflexivity].
Qed.

(** C9: in the deterministic form the key is the text of the owning
    identifier followed by the extension of the media type.  The function
    takes no entropy source and no state, so equal arguments give equal
    keys at every call. *)
Theorem getAssetPath_by_id_deterministic :
  (forall (videoID : UUID) (mediaType : string),
      AssetsByID.getAssetPath videoID mediaType =
        Uuid.String videoID +:+ mediaTypeToExt mediaType) /\
  (forall (videoID videoID' : UUID) (mediaType mediaType' : string),
      videoID = videoID' -> mediaType = mediaType' ->
      AssetsByID.getAssetPath videoID mediaType = AssetsByID.getAssetPath videoID' mediaType') /\
  AssetsByID.getAssetPath
    [x12; x34; x56; x78; x9a; xbc; xde; xf0; x12; x34; x56; x78; x9a; xbc; xde; xf0]
    "image/png" = "12345678-9abc-def0-1234-56789abcdef0.png"%string.
Proof.
  split; [|split].
  - intros videoID mediaType. unfold AssetsByID.getAssetPath. now rewrite Sprintf_s_s.
  - intros videoID videoID' mediaType mediaType' -> ->. reflexivity.
  - reflexivity.
Qed.

Lemma getAssetPath_by_id_deterministic_witness :
  AssetsByID.getAssetPath Fixture.videoID "image/png" =
  AssetsByID.getAssetPath Fixture.videoID "image/png".
Proof.
  destruct getAssetPath_by_id_deterministic as [_ [same _]].
  apply same; reflexivity.
Defined.

(** ** Go's [int] arithmetic *)

Lemma wrap_in_range (z : Z) : GoInt.min_int <= GoInt.wrap z <= GoInt.max_int.
Proof.
  unfold GoInt.wrap, GoInt.min_int, GoInt.max_int.
  pose proof (Z.mod_pos_bound (z + 2 ^ 63) (2 ^ 64) ltac:(lia)). lia.
Qed.

Lemma wrap_small (z : Z) : GoInt.min_int <= z <= GoInt.max_int -> GoInt.wrap z = z.
Proof.
  unfold GoInt.wrap, GoInt.min_int, GoInt.max_int. intros H.
  rewrite Z.mod_small; lia.
Qed.

(** Dividing a representable number by 9 cannot overflow. *)
Lemma div_by_9 (a : Z) :
  GoInt.min_int <= a <= GoInt.max_int -> GoInt.div a 9 = Z.quot a 9.
Proof.
  intros H. unfold GoInt.div. apply wrap_small.
  unfold GoInt.min_int, GoInt.max_int in *.
  destruct (Z.le_gt_cases 0 a) as [Hpos|Hneg].
  - pose proof (Z.quot_pos a 9 Hpos ltac:(lia)).
    pose proof (Z.quot_le_upper_bound a 9 a ltac:(lia) ltac:(lia)). lia.
  - rewrite <- (Z.opp_involutive a), Z.quot_opp_l by lia.
    pose proof (Z.quot_pos (- a) 9 ltac:(lia) ltac:(lia)).
    pose proof (Z.quot_le_upper_bound (- a) 9 (- a) ltac:(lia) ltac:(lia)). lia.
Qed.

Lemma scaled_16_9 (x : Z) :
  GoInt.div (GoInt.mul 16 x) 9 = Z.quot (GoInt.wrap (16 * x)) 9.
Proof. unfold GoInt.mul. apply div_by_9, wrap_in_range. Qed.

(** An exact 16:9 geometry whose scaled height is representable passes the
    first comparison of [getVideoAspectRatio]. *)
Lemma aspectRatioOf_exact_16_9 (width height : Z) :
  0 < width -> 0 < height -> 9 * width = 16 * height -> 16 * height <= GoInt.max_int ->
  aspectRatioOf width height = "16:9"%string.
Proof.
  intros Hw Hh Hratio Hfit. unfold aspectRatioOf.
  rewrite scaled_16_9, wrap_small by (unfold GoInt.min_int; lia).
  rewrite <- Hratio, Z.mul_comm, Z.quot_mul by lia.
  now rewrite Z.eqb_refl.
Qed.

(** ** Media inspection *)

(** The handler's prefix is [directoryOf] of the classification of the
    first decoded stream. *)
Lemma chooseDirectory_of_first_stream env tempFile f first rest :
  probe_err (ffprobe env tempFile) = None ->
  Json.Unmarshal (probe_stdout (ffprobe env tempFile)) = Ok (first :: rest) ->
  chooseDirectory env tempFile f =
    (Next (directoryOf (aspectRatioOf (Width first) (Height first))), f).
Proof.
  intros Herr Hdoc. unfold chooseDirectory, getVideoAspectRatio, bind, okOrExit, ret.
  now rewrite Herr, Hdoc.
Qed.

(** C3: the classification is the chain of exact integer comparisons of
    the code, with Go's arithmetic (the product wraps at 64 bits, the
    quotient truncates toward zero), and the handler turns "16:9" into
    the prefix "landscape", "9:16" into "portrait", anything else into
    "other"; 1920x1080 is landscape, 1080x1920 portrait, 1000x1000
    other, also in the keys the handler puts to the object store. *)
Theorem orientation_classification :
  (forall width height : Z,
      let landscape := width =? Z.quot (GoInt.wrap (16 * height)) 9 in
      let portrait := height =? Z.quot (GoInt.wrap (16 * width)) 9 in
      aspectRatioOf width height =
        (if landscape then "16:9" else if portrait then "9:16" else "other")%string /\
      directoryOf (aspectRatioOf width height) =
        (if landscape then "landscape" else if portrait then "portrait" else "other")%string) /\
  (forall aspectRatio : string,
      directoryOf aspectRatio =
        if String.eqb aspectRatio "16:9" then "landscape"%string
        else if String.eqb aspectRatio "9:16" then "portrait"%string
        else "other"%string) /\
  (directoryOf (aspectRatioOf 1920 1080) = "landscape"%string /\
   directoryOf (aspectRatioOf 1080 1920) = "portrait"%string /\
   directoryOf (aspectRatioOf 1000 1000) = "other"%string) /\
  (uploadedKeys RevAspectRatio 1920 1080 =
     ["landscape/AAAAAAAAAAAAAAAAAAAAAAAAAAAAAAAAAAAAAAAAAAA.mp4"%string] /\
   uploadedKeys RevFastStart 1920 1080 =
     ["landscape/AAAAAAAAAAAAAAAAAAAAAAAAAAAAAAAAAAAAAAAAAAA.mp4"%string] /\
   uploadedKeys RevFastStart 1080 1920 =
     ["portrait/AAAAAAAAAAAAAAAAAAAAAAAAAAAAAAAAAAAAAAAAAAA.mp4"%string] /\
   uploadedKeys RevFastStart 1000 1000 =
     ["other/AAAAAAAAAAAAAAAAAAAAAAAAAAAAAAAAAAAAAAAAAAA.mp4"%string]).
Proof.
  split; [|split; [reflexivity | split; [repeat split | repeat split; vm_compute; reflexivity]]].
  intros width height landscape portrait. unfold aspectRatioOf.
  rewrite !scaled_16_9. fold landscape portrait.
  destruct landscape; [split; reflexivity|].
  destruct portrait; split; reflexivity.
Qed.

(** C4, as the specification states it, fails: no exact 16:9 geometry
    with positive sides whose scaled height [16*height] is representable
    falls into "other".  Truncation cannot be the cause, since
    [9*width = 16*height] makes [height] a multiple of 9. *)
Lemma truncation_never_rejects_exact_16_9 :
  ~ (exists width height : Z,
        0 < width /\ 0 < height /\ 9 * width = 16 * height /\
        16 * height <= GoInt.max_int /\
        aspectRatioOf width height = "other"%string).
Proof.
  intros (width & height & Hw & Hh & Hratio & Hfit & Hother).
  rewrite (aspectRatioOf_exact_16_9 width height Hw Hh Hratio Hfit) in Hother.
  discriminate.
Qed.

(** C4, amended: every geometry with positive sides in true 16:9 ratio
    ([9*width = 16*height]) whose scaled height is representable is
    classified "16:9"; the integer division never turns such a geometry
    into "other". *)
Theorem exact_16_9_is_landscape (width height : Z) :
  0 < width -> 0 < height -> 9 * width = 16 * height -> 16 * height <= GoInt.max_int ->
  aspectRatioOf width height = "16:9"%string /\
  directoryOf (aspectRatioOf width height) = "landscape"%string.
Proof.
  intros Hw Hh Hratio Hfit.
  rewrite (aspectRatioOf_exact_16_9 width height Hw Hh Hratio Hfit).
  split; reflexivity.
Qed.

Lemma exact_16_9_is_landscape_witness :
  aspectRatioOf 1280 720 = "16:9"%string /\
  directoryOf (aspectRatioOf 1280 720) = "landscape"%string.
Proof.
  apply (exact_16_9_is_landscape 1280 720); [lia | lia | reflexivity | vm_compute; discriminate].
Defined.

(** What the truncation does do: it lets geometries that are not 16:9
    pass as "16:9". *)
Lemma truncation_admits_inexact_geometry :
  aspectRatioOf 1777 1000 = "16:9"%string /\ 9 * 1777 <> 16 * 1000 /\
  aspectRatioOf 1 1 = "16:9"%string.
Proof. split; [reflexivity | split; [lia | reflexivity]]. Qed.

(** Only when [16*height] wraps around can an exact 16:9 geometry miss
    both branches. *)
Lemma wrap_around_rejects_exact_16_9 :
  let width := 2 ^ 60 in
  let height := 9 * 2 ^ 56 in
  9 * width = 16 * height /\ GoInt.max_int < 16 * height /\
  aspectRatioOf width height = "other"%string.
Proof. split; [reflexivity | split; [reflexivity | vm_compute; reflexivity]]. Qed.

Lemma decodeInt_absent_or_zero (field : string) (member : option Z) :
  member = None \/ member = Some 0 -> Json.decodeInt field member = Ok 0.
Proof. intros [-> | ->]; reflexivity. Qed.

Lemma getVideoAspectRatio_first (first : StreamJSON) (rest : list StreamJSON)
  (s : Stream) (decoded : list Stream) :
  Json.decodeStream first = Ok s -> Json.decodeStreams rest = Ok decoded ->
  getVideoAspectRatio (probed (first :: rest)) = Ok (aspectRatioOf (Width s) (Height s)).
Proof.
  intros Hfirst Hrest. unfold getVideoAspectRatio, probed. simpl.
  now rewrite Hfirst, Hrest.
Qed.

(** C10: when the first stream object carries width 0 and height 0, or
    carries no width and no height at all (absent integer members decode
    to 0), [getVideoAspectRatio] answers "16:9", hence the prefix
    "landscape"; and among stream lists that decode, the answer depends on
    the first stream only.  An audio stream listed before a 1080x1920
    video stream therefore yields "16:9". *)
Theorem zero_geometry_is_landscape :
  (forall (first : StreamJSON) (rest : list StreamJSON) (decoded : list Stream),
      json_width first = None \/ json_width first = Some 0 ->
      json_height first = None \/ json_height first = Some 0 ->
      Json.decodeStreams rest = Ok decoded ->
      getVideoAspectRatio (probed (first :: rest)) = Ok "16:9"%string /\
      directoryOf "16:9" = "landscape"%string) /\
  (forall (first : StreamJSON) (rest rest' : list StreamJSON) (decoded decoded' : list Stream),
      Json.decodeStreams rest = Ok decoded ->
      Json.decodeStreams rest' = Ok decoded' ->
      getVideoAspectRatio (probed (first :: rest)) =
      getVideoAspectRatio (probed (first :: rest'))) /\
  getVideoAspectRatio
    (probed [ {| json_width := None; json_height := None |};
              {| json_width := Some 1080; json_height := Some 1920 |} ]) = Ok "16:9"%string.
Proof.
  split; [|split].
  - intros first rest decoded Hw Hh Hrest. split; [|reflexivity].
    assert (Json.decodeStream first = Ok {| Width := 0; Height := 0 |}) as Hfirst.
    { unfold Json.decodeStream.
      now rewrite (decodeInt_absent_or_zero _ _ Hw), (decodeInt_absent_or_zero _ _ Hh). }
    now rewrite (getVideoAspectRatio_first _ _ _ _ Hfirst Hrest).
  - intros first rest rest' decoded decoded' Hrest Hrest'.
    destruct (Json.decodeStream first) as [s|e] eqn:Hfirst.
    + now rewrite (getVideoAspectRatio_first _ _ _ _ Hfirst Hrest),
                  (getVideoAspectRatio_first _ _ _ _ Hfirst Hrest').
    + unfold getVideoAspectRatio, probed. simpl. now rewrite Hfirst.
  - reflexivity.
Qed.

Lemma zero_geometry_is_landscape_witness :
  (getVideoAspectRatio
     (probed [ {| json_width := Some 0; json_height := None |};
               {| json_width := Some 1000; json_height := Some 1000 |} ]) = Ok "16:9"%string /\
   directoryOf "16:9" = "landscape"%string) /\
  getVideoAspectRatio
    (probed [ {| json_width := Some 1000; json_height := Some 1000 |};
              {| json_width := Some 1920; json_height := Some 1080 |} ]) =
  getVideoAspectRatio
    (probed [ {| json_width := Some 1000; json_height := Some 1000 |} ]).
Proof.
  destruct zero_geometry_is_landscape as [zero [first_only _]].
  split.
  - apply (zero {| json_width := Some 0; json_height := None |}
             [ {| json_width := Some 1000; json_height := Some 1000 |} ]
             [ {| Width := 1000; Height := 1000 |} ]);
      [right; reflexivity | left; reflexivity | reflexivity].
  - apply (first_only {| json_width := Some 1000; json_height := Some 1000 |}
             [ {| json_width := Some 1920; json_height := Some 1080 |} ] []
             [ {| Width := 1920; Height := 1080 |} ] []); reflexivity.
Defined.

(** ** The upload handlers *)

(** *** Requests of an authenticated caller *)

Section AuthenticatedRequest.

Variables (cfg : apiConfig) (env : Env) (r : Request).
Variables (videoID : UUID) (token : string) (userID : UUID).

Hypothesis Hid : uuid_Parse env (PathValue r "videoID") = Some videoID.
Hypothesis Htok : Auth.GetBearerToken (Header r) = Ok token.
Hypothesis Hjwt : ValidateJWT env token (jwtSecret cfg) = Some userID.

(** X14: the video handlers check ownership first: a caller who does not
    own the record gets the refusal and the world is left as it was. *)
Lemma video_owner_gate rev w video :
  GetVideo env videoID = Some video ->
  UserID video <> userID ->
  handlerUploadVideo rev cfg env r w =
    (Returned (respondWithError StatusUnauthorized "Not authorized to update this video"), w).
Proof.
  intros Hget Hown. run_handler.
  rewrite Hid, Htok, Hjwt, Hget, bool_decide_eq_true_2 by exact Hown.
  reflexivity.
Qed.


(** The on-disk thumbnail handler writes the asset file for any
    authenticated caller: ownership plays no part in reaching the write. *)
Lemma thumbnail_on_disk_written_for_any_caller w header :
  FormFile r "thumbnail" = Some header ->
  partContentType header <> EmptyString ->
  os_Create env
    (getAssetDiskPath cfg (AssetsByID.getAssetPath videoID (partContentType header))) = true ->
  io_Copy_fault env = None ->
  disk (handlerUploadThumbnail ThumbOnDisk cfg env r w).2
    !! getAssetDiskPath cfg (AssetsByID.getAssetPath videoID (partContentType header)) =
  Some (partData header).
Proof.
  intros Hform Htype Hcreate Hcopy. run_handler.
  rewrite Hid, Htok, Hjwt, Hform.
  apply String.eqb_neq in Htype. rewrite Htype, Hcreate, Hcopy.
  all_answers; apply lookup_insert_eq.
Qed.

(** C7: a request that reaches the media-type check with a "video" part
    whose declared type does not parse, or parses to anything but
    "video/mp4", is answered with status 400 and the matching message;
    no file has been created, the disk is as it was and nothing was put
    to the object store. *)
Theorem video_media_type_gate rev w video handler :
  GetVideo env videoID = Some video ->
  UserID video = userID ->
  FormFile r "video" = Some handler ->
  mime_ParseMediaType env (partContentType handler) <> Some "video/mp4"%string ->
  exists msg w',
    handlerUploadVideo rev cfg env r w = (Returned (respondWithError StatusBadRequest msg), w') /\
    (msg = "Invalid Content-Type"%string \/ msg = "Invalid file type, only MP4 is allowed"%string) /\
    created w' = created w /\ disk w' = disk w /\ s3Puts w' = s3Puts w.
Proof.
  intros Hget Hown Hform Hmime.
  run_handler.
  rewrite Hid, Htok, Hjwt, Hget.
  rewrite bool_decide_eq_false_2 by (intros H; apply H; exact Hown).
  rewrite Hform.
  destruct (mime_ParseMediaType env (partContentType handler)) as [mediaType|] eqn:Hparse.
  - destruct (String.eqb mediaType "video/mp4") eqn:Hmp4.
    + apply String.eqb_eq in Hmp4. subst mediaType. now destruct Hmime.
    + cbn. eexists _, _. split; [reflexivity|]. split; [now right|]. repeat split.
  - cbn. eexists _, _. split; [reflexivity|]. split; [now left|]. repeat split.
Qed.

End AuthenticatedRequest.

Lemma video_media_type_gate_witness :
  exists msg w',
    handlerUploadVideo RevFastStart Fixture.cfg (Fixture.env Fixture.goodTranscode)
      (Fixture.upload "alice-token" "video/quicktime") Fixture.emptyWorld =
      (Returned (respondWithError StatusBadRequest msg), w') /\
    (msg = "Invalid Content-Type"%string \/ msg = "Invalid file type, only MP4 is allowed"%string) /\
    created w' = created Fixture.emptyWorld /\ disk w' = disk Fixture.emptyWorld /\
    s3Puts w' = s3Puts Fixture.emptyWorld.
Proof.
  apply (video_media_type_gate Fixture.cfg (Fixture.env Fixture.goodTranscode)
           (Fixture.upload "alice-token" "video/quicktime")
           Fixture.videoID "alice-token" Fixture.alice
           eq_refl eq_refl eq_refl
           RevFastStart Fixture.emptyWorld Fixture.alicesVideo
           {| partContentType := "video/quicktime"; partData := Fixture.payload |});
    try reflexivity.
  vm_compute. discriminate.
Defined.

(** *** Temporary files *)

(** X12: the staged file is gone when a video handler returns or panics,
    in every revision and whatever the collaborators answer. *)
Lemma staged_file_removed rev cfg env r w name :
  os_CreateTemp env "" "tubely-upload.mp4" = Some name ->
  disk w !! name = None ->
  disk (handlerUploadVideo rev cfg env r w).2 !! name = None.
Proof.
  intros Hname Hfresh. run_handler. rewrite Hname.
  destruct rev; all_answers; assumption || apply lookup_delete_eq.
Qed.

(** X13: when the transcoder succeeded with a non-empty output, that file
    is gone too when the fast-start handler returns or panics. *)
Lemma processed_file_removed_when_transcoded cfg env r w name processed :
  os_CreateTemp env "" "tubely-upload.mp4" = Some name ->
  disk w !! (name +:+ ".processing") = None ->
  ffmpeg_err (ffmpeg env name (name +:+ ".processing")) = None ->
  ffmpeg_output (ffmpeg env name (name +:+ ".processing")) = Some processed ->
  processed <> [] ->
  disk (handlerUploadVideo RevFastStart cfg env r w).2 !! (name +:+ ".processing") = None.
Proof.
  change (name +:+ ".processing") with (Fmt.Sprintf "%s.processing" [name]).
  intros Hname Hfresh Herr Hout Hnonempty. run_handler.
  repeat (next_answer; cbv beta iota zeta;
          cbn [disk createFile writeFile setDisk setCreated setOpenFiles openHandle setS3Puts] in *;
          rewrite ?lookup_insert_eq in *;
          try discriminate);
    simplify_eq; cbn.
  all: try (destruct processed; [congruence | discriminate]).
  all: lookup_disk.
Qed.

(** [processVideoForFastStart] reports an empty output file as an error
    although ffmpeg exited successfully, and leaves that file where
    ffmpeg wrote it. *)
Lemma processVideoForFastStart_empty_output env inputFilePath w :
  ffmpeg_err (ffmpeg env inputFilePath (inputFilePath +:+ ".processing")) = None ->
  ffmpeg_output (ffmpeg env inputFilePath (inputFilePath +:+ ".processing")) = Some [] ->
  let run := processVideoForFastStart env inputFilePath w in
  run.1 = Err "processed file is empty" /\
  disk run.2 !! (inputFilePath +:+ ".processing") = Some [].
Proof.
  change (inputFilePath +:+ ".processing")
    with (Fmt.Sprintf "%s.processing" [inputFilePath]).
  intros Herr Hout. unfold processVideoForFastStart.
  rewrite Herr, Hout. cbn [disk createFile writeFile setDisk setCreated].
  rewrite lookup_insert_eq. cbn. split; [reflexivity | apply lookup_insert_eq].
Qed.

(** *** Concrete runs *)

(** C1 fails on the on-disk thumbnail handler: Bob uploads a thumbnail for
    Alice's video; the handler answers with the refusal, but by then it
    has created the asset file and copied Bob's bytes into it. *)
Theorem thumbnail_written_before_owner_check :
  let run := handlerUploadThumbnail ThumbOnDisk Fixture.cfg
               (Fixture.env Fixture.goodTranscode) (Fixture.request "bob-token")
               Fixture.emptyWorld in
  bool_decide (UserID Fixture.alicesVideo = Fixture.bob) = false /\
  run.1 = Returned (respondWithError StatusUnauthorized "Not authorized to update this video") /\
  created run.2 = ["assets/12345678-9abc-def0-1234-56789abcdef0.png"%string] /\
  disk run.2 !! "assets/12345678-9abc-def0-1234-56789abcdef0.png"%string = Some Fixture.payload.
Proof.
  split; [|split; [|split]]; vm_compute; reflexivity.
Qed.

(** C2 fails when the transcoder fails after writing part of its output:
    the handler returns with the staged file removed and the partial
    fast-start file still on disk. *)
Theorem partial_transcode_output_survives :
  let run := handlerUploadVideo RevFastStart Fixture.cfg
               (Fixture.env Fixture.brokenTranscode) (Fixture.request "alice-token")
               Fixture.emptyWorld in
  run.1 = Returned (respondWithError StatusInternalServerError "Error processing video") /\
  created run.2 = ["/tmp/tubely-upload.mp41234"%string;
                   "/tmp/tubely-upload.mp41234.processing"%string] /\
  disk run.2 !! "/tmp/tubely-upload.mp41234"%string = None /\
  disk run.2 !! "/tmp/tubely-upload.mp41234.processing"%string = Some [x00; x00].
Proof.
  split; [|split; [|split]]; vm_compute; reflexivity.
Qed.

(** C6 fails in its second half: ffmpeg exits successfully and leaves an
    empty output file; [processVideoForFastStart] reports the error and
    the handler answers with it, but the empty file is still on disk when
    the handler has returned. *)
Theorem empty_transcode_output_survives :
  let env := Fixture.env Fixture.emptyTranscode in
  let run := handlerUploadVideo RevFastStart Fixture.cfg env
               (Fixture.request "alice-token") Fixture.emptyWorld in
  (processVideoForFastStart env "/tmp/tubely-upload.mp41234" Fixture.emptyWorld).1 =
    Err "processed file is empty" /\
  run.1 = Returned (respondWithError StatusInternalServerError "Error processing video") /\
  disk run.2 !! "/tmp/tubely-upload.mp41234.processing"%string = Some [] /\
  s3Puts run.2 = [].
Proof.
  split; [|split; [|split]]; vm_compute; reflexivity.
Qed.

(** The panic of [getAssetPath] leaves the handler: no response is
    written, the deferred calls still run and remove the staged file. *)
Example entropy_failure_panics_the_handler :
  let run := handlerUploadVideo RevFastStart Fixture.cfg
               (Fixture.envWith None Fixture.landscapeProbe Fixture.goodTranscode)
               (Fixture.request "alice-token") Fixture.emptyWorld in
  run.1 = Panicked "failed to generate random bytes" /\
  created run.2 = ["/tmp/tubely-upload.mp41234"%string] /\
  disk run.2 = ∅ /\ s3Puts run.2 = [].
Proof. split; [|split; [|split]]; vm_compute; reflexivity. Qed.

(** * Further properties *)

(** ** Extensions and keys *)

Lemma Count_afterSep (s : string) (sep : ascii) :
  GoStrings.Count s sep = 1%nat -> GoStrings.Count (afterSep s sep) sep = 0%nat.
Proof.
  induction s as [|c s IH]; simpl; [discriminate|].
  destruct (Ascii.eqb c sep); simpl; [intros H; now injection H | exact IH].
Qed.

Lemma Count_append (a b : string) (sep : ascii) :
  GoStrings.Count (a +:+ b) sep = (GoStrings.Count a sep + GoStrings.Count b sep)%nat.
Proof.
  induction a as [|c a IH]; [reflexivity|].
  change (String c a +:+ b) with (String c (a +:+ b)). simpl. rewrite IH. lia.
Qed.

Lemma append_length (a b : string) :
  String.length (a +:+ b) = (String.length a + String.length b)%nat.
Proof.
  induction a as [|c a IH]; [reflexivity|].
  change (String c a +:+ b) with (String c (a +:+ b)). simpl. now rewrite IH.
Qed.

Lemma append_inj (a a' b b' : string) :
  String.length a = String.length a' -> a +:+ b = a' +:+ b' -> a = a' /\ b = b'.
Proof.
  revert a'. induction a as [|c a IH]; intros [|c' a'] Hlen Heq; try discriminate Hlen.
  - now split.
  - change (String c (a +:+ b) = String c' (a' +:+ b')) in Heq.
    injection Heq as -> Heq. injection Hlen as Hlen.
    destruct (IH a' Hlen Heq) as [-> ->]. now split.
Qed.

Lemma mediaTypeToExt_cases (mediaType : string) :
  mediaTypeToExt mediaType = ".bin"%string \/
  GoStrings.Count mediaType slash = 1%nat /\
  mediaTypeToExt mediaType = String "." (afterSep mediaType slash).
Proof.
  unfold mediaTypeToExt. rewrite Split_length.
  change (Nat.eqb (S (GoStrings.Count mediaType slash)) 2)
    with (Nat.eqb (GoStrings.Count mediaType slash) 1).
  destruct (Nat.eqb (GoStrings.Count mediaType slash) 1) eqn:E; cbv [negb].
  - right. apply Nat.eqb_eq in E. now rewrite (Split_second _ _ E).
  - now left.
Qed.

Lemma mediaTypeToExt_without_slash (mediaType : string) :
  GoStrings.Count (mediaTypeToExt mediaType) slash = 0%nat.
Proof.
  destruct (mediaTypeToExt_cases mediaType) as [-> | [Hone ->]]; [reflexivity|].
  simpl. now apply Count_afterSep.
Qed.

(** X1: whatever the media type, the extension starts with "." and holds
    no "/": a media type cannot smuggle a path separator into a key. *)
Theorem mediaTypeToExt_no_separator (mediaType : string) :
  GoStrings.Count (mediaTypeToExt mediaType) slash = 0%nat /\
  exists suffix, mediaTypeToExt mediaType = String "." suffix.
Proof.
  destruct (mediaTypeToExt_cases mediaType) as [Hbin | [Hone Hext]]; rewrite ?Hbin, ?Hext.
  - split; [reflexivity | now exists "bin"%string].
  - split; [|now exists (afterSep mediaType slash)].
    change (GoStrings.Count (String "." (afterSep mediaType slash)) slash)
      with (GoStrings.Count (afterSep mediaType slash) slash).
    now apply Count_afterSep.
Qed.

(** *** Hexadecimal text *)

Lemma hexByte_digits (b : byte) :
  hexByte (Uuid.hexdigit (N.shiftr (Byte.to_N b) 4)) (Uuid.hexdigit (Byte.to_N b)) = Some b.
Proof. destruct b; vm_compute; reflexivity. Qed.

Lemma hexDecode_hexEncode (src : list byte) : hexDecode (Uuid.hexEncode src) = Some src.
Proof.
  induction src as [|b src IH]; [reflexivity|].
  cbn [Uuid.hexEncode hexDecode]. now rewrite hexByte_digits, IH.
Qed.

Lemma hexEncode_length (src : list byte) :
  String.length (Uuid.hexEncode src) = (2 * length src)%nat.
Proof. induction src as [|b src IH]; simpl; [reflexivity | rewrite IH; lia]. Qed.

Lemma hexdigits_same_byte (b b' : byte) :
  Uuid.hexdigit (N.shiftr (Byte.to_N b) 4) = Uuid.hexdigit (N.shiftr (Byte.to_N b') 4) ->
  Uuid.hexdigit (Byte.to_N b) = Uuid.hexdigit (Byte.to_N b') ->
  b = b'.
Proof.
  intros Hhi Hlo. pose proof (hexByte_digits b) as H. rewrite Hhi, Hlo, hexByte_digits in H.
  now injection H.
Qed.

(** X2: in the deterministic form, two videos never share a key: equal
    keys come from equal identifiers (and equal extensions). *)
Theorem getAssetPath_by_id_injective (videoID videoID' : UUID) (mediaType mediaType' : string) :
  length videoID = 16%nat -> length videoID' = 16%nat ->
  AssetsByID.getAssetPath videoID mediaType = AssetsByID.getAssetPath videoID' mediaType' ->
  videoID = videoID' /\ mediaTypeToExt mediaType = mediaTypeToExt mediaType'.
Proof.
  intros Hlen Hlen' Hkey.
  unfold AssetsByID.getAssetPath in Hkey. rewrite !Sprintf_s_s in Hkey.
  do 17 (destruct videoID as [|? videoID]; try discriminate Hlen).
  do 17 (destruct videoID' as [|? videoID']; try discriminate Hlen').
  cbv [Uuid.String take drop Uuid.hexEncode String.append] in Hkey.
  repeat match goal with
         | H : String _ _ = String _ _ |- _ => injection H as ? H
         end.
  split; [|assumption].
  repeat f_equal; apply hexdigits_same_byte; assumption.
Qed.

Lemma getAssetPath_by_id_injective_witness :
  Fixture.videoID = Fixture.videoID /\ mediaTypeToExt "image/png" = mediaTypeToExt "video/png".
Proof.
  apply (getAssetPath_by_id_injective Fixture.videoID Fixture.videoID "image/png" "video/png");
    reflexivity.
Defined.

(** X3: [MakeRefreshToken] hands the entropy source's error back to its
    caller instead of panicking; a token it returns is the lower-case
    hexadecimal text of the random bytes, two characters a byte, from
    which the bytes can be read back, so that different bytes give
    different tokens. *)
Theorem MakeRefreshToken_spec :
  (forall err, AuthTokens.MakeRefreshToken (Err err) = Err err) /\
  (forall bytes, exists token,
      AuthTokens.MakeRefreshToken (Ok bytes) = Ok token /\
      String.length token = (2 * length bytes)%nat /\
      hexDecode token = Some bytes) /\
  (forall bytes bytes',
      AuthTokens.MakeRefreshToken (Ok bytes) = AuthTokens.MakeRefreshToken (Ok bytes') <->
      bytes = bytes').
Proof.
  split; [reflexivity|]. split.
  - intros bytes. exists (Uuid.hexEncode bytes).
    split; [reflexivity|]. split; [apply hexEncode_length | apply hexDecode_hexEncode].
  - intros bytes bytes'. split; [|now intros ->].
    intros [= H]. pose proof (hexDecode_hexEncode bytes) as Hd.
    rewrite H, hexDecode_hexEncode in Hd. now injection Hd.
Qed.

(** *** URL-safe base64 text *)

Lemma land_63_below (v : N) : (N.to_nat (N.land v 63) < 64)%nat.
Proof.
  change 63%N with (N.ones 6). rewrite N.land_ones.
  pose proof (N.mod_upper_bound v (2 ^ 6) ltac:(discriminate)) as H.
  change (2 ^ 6)%N with 64%N in *. lia.
Qed.

Lemma sextet_encode_below :
  forall k : nat, (k < 64)%nat ->
    sextet (Base64.encode (N.of_nat k)) = Some (N.of_nat k) /\
    Ascii.eqb (Base64.encode (N.of_nat k)) slash = false.
Proof.
  assert (forallb (fun k => bool_decide (sextet (Base64.encode (N.of_nat k)) = Some (N.of_nat k))
                            && negb (Ascii.eqb (Base64.encode (N.of_nat k)) slash))
            (seq 0 64) = true) as Hall by (vm_compute; reflexivity).
  intros k Hk. rewrite forallb_forall in Hall.
  specialize (Hall k ltac:(apply in_seq; lia)).
  apply andb_prop in Hall as [Hs Hc].
  apply bool_decide_eq_true in Hs. apply negb_true_iff in Hc. now split.
Qed.

Lemma encode_land (v : N) : Base64.encode v = Base64.encode (N.land v 63).
Proof.
  unfold Base64.encode. f_equal. f_equal. f_equal.
  change 63%N with (N.ones 6). rewrite !N.land_ones, N.Div0.mod_mod; reflexivity.
Qed.

Lemma sextet_encode (v : N) : sextet (Base64.encode v) = Some (N.land v 63).
Proof.
  rewrite encode_land.
  destruct (sextet_encode_below _ (land_63_below v)) as [H _].
  now rewrite N2Nat.id in H.
Qed.

Lemma encode_not_slash (v : N) : Ascii.eqb (Base64.encode v) slash = false.
Proof.
  rewrite encode_land.
  destruct (sextet_encode_below _ (land_63_below v)) as [_ H].
  now rewrite N2Nat.id in H.
Qed.

Lemma group_sextet0 b0 b1 b2 :
  N.land (N.shiftr (group b0 b1 b2) 18) 63 = N.shiftr (Byte.to_N b0) 2.
Proof.
  unfold group. rewrite !N.shiftr_lor, !N.land_lor_distr_l.
  replace (N.land (N.shiftr (N.shiftl (Byte.to_N b1) 8) 18) 63) with 0%N by bytewise b1.
  replace (N.land (N.shiftr (Byte.to_N b2) 18) 63) with 0%N by bytewise b2.
  rewrite !N.lor_0_r. bytewise b0.
Qed.

Lemma group_sextet1 b0 b1 b2 :
  N.land (N.shiftr (group b0 b1 b2) 12) 63 =
  N.lor (N.shiftl (N.land (Byte.to_N b0) 3) 4) (N.shiftr (Byte.to_N b1) 4).
Proof.
  unfold group. rewrite !N.shiftr_lor, !N.land_lor_distr_l.
  replace (N.land (N.shiftr (Byte.to_N b2) 12) 63) with 0%N by bytewise b2.
  rewrite N.lor_0_r. f_equal; [bytewise b0 | bytewise b1].
Qed.

Lemma group_sextet2 b0 b1 b2 :
  N.land (N.shiftr (group b0 b1 b2) 6) 63 =
  N.lor (N.shiftl (N.land (Byte.to_N b1) 15) 2) (N.shiftr (Byte.to_N b2) 6).
Proof.
  unfold group. rewrite !N.shiftr_lor, !N.land_lor_distr_l.
  replace (N.land (N.shiftr (N.shiftl (Byte.to_N b0) 16) 6) 63) with 0%N by bytewise b0.
  rewrite N.lor_0_l. f_equal; [bytewise b1 | bytewise b2].
Qed.

Lemma group_sextet3 b0 b1 b2 :
  N.land (group b0 b1 b2) 63 = N.land (Byte.to_N b2) 63.
Proof.
  unfold group. rewrite !N.land_lor_distr_l.
  replace (N.land (N.shiftl (Byte.to_N b0) 16) 63) with 0%N by bytewise b0.
  replace (N.land (N.shiftl (Byte.to_N b1) 8) 63) with 0%N by bytewise b1.
  now rewrite !N.lor_0_l.
Qed.

Lemma byte0_sextets b0 b1 :
  byte0 (N.shiftr (Byte.to_N b0) 2)
    (N.lor (N.shiftl (N.land (Byte.to_N b0) 3) 4) (N.shiftr (Byte.to_N b1) 4)) = Some b0.
Proof.
  unfold byte0. rewrite N.shiftr_lor.
  replace (N.shiftr (N.shiftr (Byte.to_N b1) 4) 4) with 0%N by bytewise b1.
  rewrite N.lor_0_r. bytewise b0.
Qed.

Lemma byte1_sextets b0 b1 b2 :
  byte1 (N.lor (N.shiftl (N.land (Byte.to_N b0) 3) 4) (N.shiftr (Byte.to_N b1) 4))
    (N.lor (N.shiftl (N.land (Byte.to_N b1) 15) 2) (N.shiftr (Byte.to_N b2) 6)) = Some b1.
Proof.
  unfold byte1. rewrite N.shiftr_lor, N.land_lor_distr_l.
  replace (N.land (N.shiftl (N.land (Byte.to_N b0) 3) 4) 15) with 0%N by bytewise b0.
  replace (N.shiftr (N.shiftr (Byte.to_N b2) 6) 2) with 0%N by bytewise b2.
  rewrite N.lor_0_l, N.lor_0_r. bytewise b1.
Qed.

Lemma byte2_sextets b1 b2 :
  byte2 (N.lor (N.shiftl (N.land (Byte.to_N b1) 15) 2) (N.shiftr (Byte.to_N b2) 6))
    (N.land (Byte.to_N b2) 63) = Some b2.
Proof.
  unfold byte2. rewrite N.land_lor_distr_l.
  replace (N.land (N.shiftl (N.land (Byte.to_N b1) 15) 2) 3) with 0%N by bytewise b1.
  rewrite N.lor_0_l. bytewise b2.
Qed.

(** What [RawURLEncodeToString] writes can be read back. *)
Lemma base64Decode_encode_upto (n : nat) :
  forall src : list byte, (length src <= n)%nat ->
    base64Decode (Base64.RawURLEncodeToString src) = Some src.
Proof.
  induction n as [n IH] using lt_wf_ind. intros src Hlen.
  destruct src as [|b0 [|b1 [|b2 rest]]]; [reflexivity | | |].
  - cbn [Base64.RawURLEncodeToString base64Decode].
    replace (N.shiftl (Byte.to_N b0) 16) with (group b0 x00 x00)
      by (unfold group; cbn; now rewrite !N.lor_0_r).
    rewrite !sextet_encode, group_sextet0, group_sextet1.
    now rewrite (byte0_sextets b0 x00).
  - cbn [Base64.RawURLEncodeToString base64Decode].
    replace (N.lor (N.shiftl (Byte.to_N b0) 16) (N.shiftl (Byte.to_N b1) 8))
      with (group b0 b1 x00) by (unfold group; cbn; now rewrite !N.lor_0_r).
    rewrite !sextet_encode, group_sextet0, group_sextet1, group_sextet2.
    now rewrite (byte0_sextets b0 b1), (byte1_sextets b0 b1 x00).
  - cbn [Base64.RawURLEncodeToString base64Decode].
    fold (group b0 b1 b2).
    rewrite !sextet_encode, group_sextet0, group_sextet1, group_sextet2, group_sextet3.
    rewrite (byte0_sextets b0 b1), (byte1_sextets b0 b1 b2), (byte2_sextets b1 b2).
    rewrite (IH (length rest)); [reflexivity | simpl in Hlen; lia | lia].
Qed.

Lemma RawURLEncodeToString_shape_upto (n : nat) :
  forall src : list byte, (length src <= n)%nat ->
    String.length (Base64.RawURLEncodeToString src) = ((4 * length src + 2) / 3)%nat /\
    GoStrings.Count (Base64.RawURLEncodeToString src) slash = 0%nat.
Proof.
  induction n as [n IH] using lt_wf_ind. intros src Hlen.
  destruct src as [|b0 [|b1 [|b2 rest]]]; [split; reflexivity | | |];
    cbn [Base64.RawURLEncodeToString String.length GoStrings.Count];
    rewrite ?encode_not_slash.
  - split; reflexivity.
  - split; reflexivity.
  - destruct (IH (length rest) ltac:(simpl in Hlen; lia) rest ltac:(lia)) as [Hl Hc].
    rewrite Hl, Hc. split; [|reflexivity].
    cbn [length].
    replace (4 * S (S (S (length rest))) + 2)%nat with ((4 * length rest + 2) + 4 * 3)%nat by lia.
    rewrite Nat.div_add by discriminate. lia.
Qed.

(** X4: a random key is the 43 characters that encode the 32 random bytes
    followed by the extension, and holds no "/": joined to an orientation
    prefix it stays one path element. *)
Theorem random_key_shape (base : list byte) (mediaType key : string) :
  length base = 32%nat ->
  AssetsRandom.getAssetPath (Some base) mediaType = Returned key ->
  String.length key = (43 + String.length (mediaTypeToExt mediaType))%nat /\
  GoStrings.Count key slash = 0%nat.
Proof.
  intros Hlen Hkey. unfold AssetsRandom.getAssetPath in Hkey.
  rewrite Sprintf_s_s in Hkey. injection Hkey as <-.
  destruct (RawURLEncodeToString_shape_upto 32 base ltac:(lia)) as [Hl Hc].
  rewrite append_length, Count_append, Hl, Hc, Hlen. split; [reflexivity|].
  apply mediaTypeToExt_without_slash.
Qed.

Lemma random_key_shape_witness :
  String.length "AAAAAAAAAAAAAAAAAAAAAAAAAAAAAAAAAAAAAAAAAAA.mp4" =
    (43 + String.length (mediaTypeToExt "video/mp4"))%nat /\
  GoStrings.Count "AAAAAAAAAAAAAAAAAAAAAAAAAAAAAAAAAAAAAAAAAAA.mp4" slash = 0%nat.
Proof.
  apply (random_key_shape (repeat x00 32) "video/mp4"); reflexivity.
Defined.

(** X5: two random keys are equal only if the random bytes they were made
    from are equal (and the extensions too): keys collide exactly when the
    entropy source repeats itself. *)
Theorem random_key_injective (base base' : list byte) (mediaType mediaType' : string) :
  length base = length base' ->
  AssetsRandom.getAssetPath (Some base) mediaType =
  AssetsRandom.getAssetPath (Some base') mediaType' ->
  base = base' /\ mediaTypeToExt mediaType = mediaTypeToExt mediaType'.
Proof.
  intros Hlen Hkey. unfold AssetsRandom.getAssetPath in Hkey.
  rewrite !Sprintf_s_s in Hkey. injection Hkey as Hkey.
  apply append_inj in Hkey as [Hbase Hext].
  - split; [|assumption].
    pose proof (base64Decode_encode_upto (length base) base ltac:(lia)) as H.
    rewrite Hbase, (base64Decode_encode_upto (length base') base' ltac:(lia)) in H.
    now injection H.
  - destruct (RawURLEncodeToString_shape_upto (length base) base ltac:(lia)) as [-> _].
    destruct (RawURLEncodeToString_shape_upto (length base') base' ltac:(lia)) as [-> _].
    now rewrite Hlen.
Qed.

Lemma random_key_injective_witness :
  repeat x00 32 = repeat x00 32 /\ mediaTypeToExt "video/mp4" = mediaTypeToExt "image/mp4".
Proof.
  apply (random_key_injective (repeat x00 32) (repeat x00 32) "video/mp4" "image/mp4");
    reflexivity.
Defined.

(** ** Authorization headers *)

Lemma Split_first (s : string) (sep : ascii) :
  nth 0 (GoStrings.Split s sep) EmptyString = beforeSep s sep.
Proof.
  induction s as [|c s IH]; simpl; [reflexivity|].
  destruct (Ascii.eqb c sep); [reflexivity|].
  pose proof (Split_length s sep) as Hlen.
  destruct (GoStrings.Split s sep) as [|piece pieces]; [discriminate|].
  simpl in *. now rewrite IH.
Qed.

Lemma Split_at_first_sep (s : string) (sep : ascii) :
  (1 <= GoStrings.Count s sep)%nat ->
  s = beforeSep s sep +:+ String sep (afterSep s sep) /\
  GoStrings.Split s sep = beforeSep s sep :: GoStrings.Split (afterSep s sep) sep.
Proof.
  induction s as [|c s IH]; simpl; [lia|].
  destruct (Ascii.eqb c sep) eqn:E.
  - intros _. apply Ascii.eqb_eq in E. subst c. now split.
  - simpl. intros H. destruct (IH H) as [Hs Hsplit]. split.
    + change (String c (beforeSep s sep) +:+ String sep (afterSep s sep))
        with (String c (beforeSep s sep +:+ String sep (afterSep s sep))).
      now rewrite <- Hs.
    + now rewrite Hsplit.
Qed.

Lemma Split_after_prefix (a rest : string) (sep : ascii) :
  GoStrings.Count a sep = 0%nat ->
  GoStrings.Split (a +:+ String sep rest) sep = a :: GoStrings.Split rest sep.
Proof.
  induction a as [|c a IH]; simpl.
  - intros _. change ("" +:+ String sep rest) with (String sep rest). simpl.
    now rewrite Ascii.eqb_refl.
  - change (String c a +:+ String sep rest) with (String c (a +:+ String sep rest)). simpl.
    destruct (Ascii.eqb c sep); [discriminate|]. simpl. intros H. now rewrite (IH H).
Qed.

(** The reading the two header functions share: the scheme word, one
    space, then the text up to the next space. *)
Lemma scheme_token (scheme authHeader token : string) :
  GoStrings.Count scheme " " = 0%nat -> scheme <> EmptyString ->
  (let splitAuth := GoStrings.Split authHeader " " in
   (if String.eqb authHeader "" then Err "no auth header included in request"
    else if ((length splitAuth <? 2)%nat
             || negb (String.eqb (nth 0 splitAuth EmptyString) scheme))%bool
         then Err "malformed authorization header"
         else Ok (nth 1 splitAuth EmptyString)) = Ok token) <->
  exists rest, authHeader = scheme +:+ String " " rest /\ token = beforeSep rest " ".
Proof.
  intros Hscheme Hnonempty. cbv zeta. split.
  - destruct (String.eqb authHeader "") eqn:Hempty; [discriminate|].
    destruct (length (GoStrings.Split authHeader " ") <? 2)%nat eqn:Hlen; [discriminate|].
    destruct (String.eqb (nth 0 (GoStrings.Split authHeader " ") "") scheme) eqn:Hword;
      [|discriminate].
    cbn [orb negb]. intros Htoken. injection Htoken as <-.
    apply Nat.ltb_ge in Hlen. rewrite Split_length in Hlen.
    destruct (Split_at_first_sep authHeader " " ltac:(lia)) as [Hs Hsplit].
    apply String.eqb_eq in Hword. rewrite Split_first in Hword.
    exists (afterSep authHeader " "). split.
    + now rewrite <- Hword.
    + rewrite Hsplit. cbn [nth]. apply Split_first.
  - intros (rest & -> & ->).
    rewrite (Split_after_prefix _ _ _ Hscheme).
    assert (String.eqb (scheme +:+ String " " rest) "" = false) as ->
      by (destruct scheme; [now destruct Hnonempty | reflexivity]).
    pose proof (Split_length rest " ") as Hl.
    destruct (GoStrings.Split rest " ") as [|piece pieces] eqn:Hsplit; [discriminate|].
    cbn [length nth Nat.ltb Nat.leb]. rewrite String.eqb_refl. cbn [orb negb].
    f_equal. rewrite <- (Split_first rest " "), Hsplit. reflexivity.
Qed.

(** X6: [GetBearerToken] accepts exactly the headers that read "Bearer",
    one space, then anything; the token is the text up to the next space
    (possibly empty), and whatever follows it is ignored. *)
Theorem GetBearerToken_spec (headers : Auth.Header) (token : string) :
  Auth.GetBearerToken headers = Ok token <->
  exists rest, headers "Authorization"%string = "Bearer " +:+ rest /\
               token = beforeSep rest " ".
Proof. apply (scheme_token "Bearer"); [reflexivity | discriminate]. Qed.

(** X7: [GetAPIKey] accepts exactly the headers that read "ApiKey", one
    space, then anything; the key is the text up to the next space. *)
Theorem GetAPIKey_spec (headers : Auth.Header) (key : string) :
  AuthTokens.GetAPIKey headers = Ok key <->
  exists rest, headers "Authorization"%string = "ApiKey " +:+ rest /\
               key = beforeSep rest " ".
Proof. apply (scheme_token "ApiKey"); [reflexivity | discriminate]. Qed.

(** X8: no header is read both as a bearer token and as an API key. *)
Theorem bearer_and_api_key_exclusive (headers : Auth.Header) :
  match Auth.GetBearerToken headers, AuthTokens.GetAPIKey headers with
  | Ok _, Ok _ => False
  | _, _ => True
  end.
Proof.
  destruct (Auth.GetBearerToken headers) as [token|] eqn:Hb; [|exact I].
  destruct (AuthTokens.GetAPIKey headers) as [key|] eqn:Hk; [|exact I].
  apply (scheme_token "Bearer") in Hb as (rest & Hb & _); [|reflexivity|discriminate].
  apply (scheme_token "ApiKey") in Hk as (rest' & Hk & _); [|reflexivity|discriminate].
  rewrite Hb in Hk. discriminate Hk.
Qed.

(** ** The comparison chain as a tolerance band *)

(** The scaled side of a non-negative, representable product. *)
Lemma scaled_16_9_small (x : Z) :
  0 <= x -> 16 * x <= GoInt.max_int ->
  GoInt.div (GoInt.mul 16 x) 9 = (16 * x) / 9.
Proof.
  intros Hx Hfit. rewrite scaled_16_9, wrap_small by (unfold GoInt.min_int; lia).
  apply Z.quot_div_nonneg; lia.
Qed.

Lemma aspectRatioOf_small (width height : Z) :
  0 <= width -> 0 <= height ->
  16 * width <= GoInt.max_int -> 16 * height <= GoInt.max_int ->
  aspectRatioOf width height =
    if width =? 16 * height / 9 then "16:9"%string
    else if height =? 16 * width / 9 then "9:16"%string else "other"%string.
Proof.
  intros Hw Hh Hfw Hfh. unfold aspectRatioOf. now rewrite !scaled_16_9_small by assumption.
Qed.

(** X9: on non-negative sides whose scaled values are representable the
    test is a tolerance band, not an exact ratio: "16:9" is answered
    exactly when [16*height - 9*width] lies between 0 and 8, and "9:16"
    exactly when that fails and [16*width - 9*height] lies between 0 and
    8. *)
Theorem aspectRatioOf_band (width height : Z) :
  0 <= width -> 0 <= height ->
  16 * width <= GoInt.max_int -> 16 * height <= GoInt.max_int ->
  (aspectRatioOf width height = "16:9"%string <-> 0 <= 16 * height - 9 * width <= 8) /\
  (aspectRatioOf width height = "9:16"%string <->
     ~ (0 <= 16 * height - 9 * width <= 8) /\ 0 <= 16 * width - 9 * height <= 8).
Proof.
  intros Hw Hh Hfw Hfh. rewrite aspectRatioOf_small by assumption.
  scaled_division height. scaled_division width.
  destruct (width =? 16 * height / 9) eqn:E1.
  - apply Z.eqb_eq in E1. split; split; try discriminate; try (intros; reflexivity); lia.
  - apply Z.eqb_neq in E1.
    destruct (height =? 16 * width / 9) eqn:E2.
    + apply Z.eqb_eq in E2. split; split; try discriminate; try (intros; reflexivity); lia.
    + apply Z.eqb_neq in E2. split; split; try discriminate; lia.
Qed.

Lemma aspectRatioOf_band_witness :
  (aspectRatioOf 1777 1000 = "16:9"%string <-> 0 <= 16 * 1000 - 9 * 1777 <= 8) /\
  (aspectRatioOf 1777 1000 = "9:16"%string <->
     ~ (0 <= 16 * 1000 - 9 * 1777 <= 8) /\ 0 <= 16 * 1777 - 9 * 1000 <= 8).
Proof.
  apply (aspectRatioOf_band 1777 1000); [lia | lia | vm_compute; discriminate ..].
Defined.

(** X10: turning a landscape frame on its side gives a portrait frame, as
    soon as the short side is at least 2 (1x1 and 0x0 are "16:9" both
    ways, the first comparison winning); turning a portrait frame gives
    a landscape frame. *)
Theorem aspectRatioOf_rotation (width height : Z) :
  0 <= width -> 2 <= height ->
  16 * width <= GoInt.max_int -> 16 * height <= GoInt.max_int ->
  (aspectRatioOf width height = "16:9"%string -> aspectRatioOf height width = "9:16"%string) /\
  (aspectRatioOf width height = "9:16"%string -> aspectRatioOf height width = "16:9"%string).
Proof.
  intros Hw Hh Hfw Hfh.
  rewrite (aspectRatioOf_small width height), (aspectRatioOf_small height width)
    by (assumption || lia).
  scaled_division height. scaled_division width.
  destruct (width =? 16 * height / 9) eqn:E1; destruct (height =? 16 * width / 9) eqn:E2;
    split; intros Hratio; try discriminate Hratio; try reflexivity.
  apply Z.eqb_eq in E1, E2. lia.
Qed.

Lemma aspectRatioOf_rotation_witness :
  (aspectRatioOf 1920 1080 = "16:9"%string -> aspectRatioOf 1080 1920 = "9:16"%string) /\
  (aspectRatioOf 1920 1080 = "9:16"%string -> aspectRatioOf 1080 1920 = "16:9"%string).
Proof.
  apply (aspectRatioOf_rotation 1920 1080); [lia | lia | vm_compute; discriminate ..].
Defined.

(** ** The transcoder *)

Lemma processing_path_differs (inputFilePath : string) :
  inputFilePath <> inputFilePath +:+ ".processing".
Proof.
  intros H. apply (f_equal String.length) in H. rewrite append_length in H.
  simpl in H. lia.
Qed.

(** X11: [processVideoForFastStart] touches one file only, the output
    path beside its input, and never the input itself.  When it returns a
    path, that is the output path, ffmpeg reported no error and the file
    there exists and is not empty; when it returns an error, whatever
    ffmpeg wrote is still there. *)
Theorem processVideoForFastStart_spec env inputFilePath w :
  let run := processVideoForFastStart env inputFilePath w in
  let output := inputFilePath +:+ ".processing" in
  (forall p, p <> output -> disk run.2 !! p = disk w !! p) /\
  disk run.2 !! inputFilePath = disk w !! inputFilePath /\
  match run.1 with
  | Ok path =>
      path = output /\ ffmpeg_err (ffmpeg env inputFilePath output) = None /\
      exists contents, disk run.2 !! output = Some contents /\ contents <> []
  | Err _ =>
      forall bytes, ffmpeg_output (ffmpeg env inputFilePath output) = Some bytes ->
                    disk run.2 !! output = Some bytes
  end.
Proof.
  cbv zeta. pose proof (processing_path_differs inputFilePath) as Hdiff.
  change (inputFilePath +:+ ".processing")
    with (Fmt.Sprintf "%s.processing" [inputFilePath]) in *.
  unfold processVideoForFastStart.
  destruct (ffmpeg_output _) as [bytes|] eqn:Hout;
    destruct (ffmpeg_err _) as [err|] eqn:Herr;
    cbn [fst snd disk createFile writeFile setDisk setCreated];
    rewrite ?lookup_insert_eq.
  - split; [|split].
    + intros p Hp. now rewrite lookup_insert_ne by congruence.
    + now rewrite lookup_insert_ne by congruence.
    + intros ? [= <-]. first [reflexivity | apply lookup_insert_eq].
  - destruct (length bytes =? 0)%nat eqn:Hlen;
      cbn [fst snd disk createFile writeFile setDisk setCreated];
      (split; [|split]);
      try (intros p Hp; now rewrite lookup_insert_ne by congruence);
      try (now rewrite lookup_insert_ne by congruence).
    + intros ? [= <-]. first [reflexivity | apply lookup_insert_eq].
    + split; [reflexivity|]. split; [reflexivity|].
      exists bytes. split; [first [reflexivity | apply lookup_insert_eq]|].
      intros ->. discriminate.
  - split; [|split]; try reflexivity. intros ? [=].
  - destruct (disk w !! Fmt.Sprintf "%s.processing" [inputFilePath]) as [contents|] eqn:Hstat.
    + destruct (length contents =? 0)%nat eqn:Hlen; cbn [fst snd];
        (split; [|split]); try reflexivity; try (intros ? [=]).
      split; [reflexivity|]. split; [reflexivity|].
      exists contents. split; [assumption|]. intros ->. discriminate.
    + cbn [fst snd]. split; [|split]; try reflexivity. intros ? [=].
Qed.

(** ** The video handlers, on every path *)

Lemma staged_file_removed_witness :
  disk (handlerUploadVideo RevFastStart Fixture.cfg (Fixture.env Fixture.brokenTranscode)
          (Fixture.request "alice-token") Fixture.emptyWorld).2
    !! "/tmp/tubely-upload.mp41234"%string = None.
Proof.
  apply (staged_file_removed RevFastStart Fixture.cfg (Fixture.env Fixture.brokenTranscode)
           (Fixture.request "alice-token") Fixture.emptyWorld "/tmp/tubely-upload.mp41234");
    reflexivity.
Defined.

Lemma processed_file_removed_when_transcoded_witness :
  disk (handlerUploadVideo RevFastStart Fixture.cfg (Fixture.env Fixture.goodTranscode)
          (Fixture.request "alice-token") Fixture.emptyWorld).2
    !! ("/tmp/tubely-upload.mp41234" +:+ ".processing") = None.
Proof.
  apply (processed_file_removed_when_transcoded Fixture.cfg (Fixture.env Fixture.goodTranscode)
           (Fixture.request "alice-token") Fixture.emptyWorld "/tmp/tubely-upload.mp41234"
           Fixture.payload); try reflexivity.
  discriminate.
Defined.

Lemma video_owner_gate_witness :
  handlerUploadVideo RevFastStart Fixture.cfg (Fixture.env Fixture.goodTranscode)
    (Fixture.request "bob-token") Fixture.emptyWorld =
  (Returned (respondWithError StatusUnauthorized "Not authorized to update this video"),
   Fixture.emptyWorld).
Proof.
  apply (video_owner_gate Fixture.cfg (Fixture.env Fixture.goodTranscode)
           (Fixture.request "bob-token") Fixture.videoID "bob-token" Fixture.bob
           eq_refl eq_refl eq_refl RevFastStart Fixture.emptyWorld Fixture.alicesVideo);
    [reflexivity | discriminate].
Defined.


(** X16: the database row is written only with the success answer: any
    other way out of a video handler leaves the database untouched. *)
Theorem video_error_leaves_database rev cfg env r w :
  let run := handlerUploadVideo rev cfg env r w in
  match run.1 with
  | Returned (respondWithJSON _ _) => True
  | _ => dbUpdates run.2 = dbUpdates w
  end.
Proof.
  run_handler. destruct rev; all_answers; reflexivity || exact I.
Qed.

(** X17: a video handler panics only through [getAssetPath]: the entropy
    source failed; by then nothing has been put to the object store and
    nothing written to the database.  The thumbnail handlers never
    panic. *)
Theorem handler_panics_only_on_entropy_failure rev trev cfg env r w :
  (forall msg, (handlerUploadVideo rev cfg env r w).1 = Panicked msg ->
     msg = "failed to generate random bytes"%string /\ rand_Read env = None /\
     s3Puts (handlerUploadVideo rev cfg env r w).2 = s3Puts w /\
     dbUpdates (handlerUploadVideo rev cfg env r w).2 = dbUpdates w) /\
  (forall msg, (handlerUploadThumbnail trev cfg env r w).1 <> Panicked msg).
Proof.
  split; intros msg.
  - run_handler. unfold AssetsRandom.getAssetPath.
    destruct rev; all_answers; intros H; try discriminate H; injection H as <-; repeat split.
  - run_handler. destruct trev; all_answers; discriminate.
Qed.

(** X18: a handler closes every file handle it opened, on every way out,
    a panic included. *)
Theorem handlers_close_their_files rev trev cfg env r w :
  openFiles w = [] ->
  openFiles (handlerUploadVideo rev cfg env r w).2 = [] /\
  openFiles (handlerUploadThumbnail trev cfg env r w).2 = [].
Proof.
  intros Hopen. split.
  - run_handler.
    destruct rev; repeat (next_answer; cbv beta iota zeta; try discriminate);
      cbn -[String.eqb]; rewrite ?Hopen; close_handles.
  - run_handler.
    destruct trev; repeat (next_answer; cbv beta iota zeta; try discriminate);
      cbn -[String.eqb]; rewrite ?Hopen; close_handles.
Qed.

Lemma handlers_close_their_files_witness :
  openFiles (handlerUploadVideo RevFastStart Fixture.cfg (Fixture.env Fixture.goodTranscode)
               (Fixture.request "alice-token") Fixture.emptyWorld).2 = [] /\
  openFiles (handlerUploadThumbnail ThumbOnDisk Fixture.cfg (Fixture.env Fixture.goodTranscode)
               (Fixture.request "alice-token") Fixture.emptyWorld).2 = [].
Proof.
  apply (handlers_close_their_files RevFastStart ThumbOnDisk). reflexivity.
Defined.



(** X20: a video handler issues at most one [PutObject] per request, into
    the configured bucket, declared as "video/mp4", under a key made of
    the URL-safe base64 text of the random bytes and ".mp4", which the
    later revisions put under one of the three orientation prefixes. *)
Theorem video_handler_puts rev cfg env r w :
  let w' := (handlerUploadVideo rev cfg env r w).2 in
  s3Puts w' = s3Puts w \/
  exists base body prefix,
    rand_Read env = Some base /\
    match rev with
    | RevS3 => prefix = EmptyString
    | _ => prefix = "landscape/"%string \/ prefix = "portrait/"%string \/
           prefix = "other/"%string
    end /\
    s3Puts w' = s3Puts w ++
      [ {| Bucket := s3Bucket cfg;
           Key := prefix +:+ Base64.RawURLEncodeToString base +:+ ".mp4";
           Body := body; ContentType := "video/mp4" |} ].
Proof.
  run_handler. unfold AssetsRandom.getAssetPath.
  destruct rev; all_answers; try (left; reflexivity); right;
    match goal with
    | H : negb (String.eqb ?s _) = false |- _ =>
        apply negb_false_iff, String.eqb_eq in H; subst s
    end.
  all: unfold directoryOf;
    repeat match goal with
           | |- context [String.eqb ?a ?b] => destruct (String.eqb a b)
           end.
  all: eexists _, _, _; split; [reflexivity|].
  all: first [ split; [reflexivity | reflexivity]
             | split; [left; reflexivity | reflexivity]
             | split; [right; left; reflexivity | reflexivity]
             | split; [right; right; reflexivity | reflexivity] ].
Qed.

(** X21: when a video handler answers with the record, the caller is the
    record's owner, exactly one object was put and accepted by the store,
    the record answered is the stored one with its video URL set to the
    public URL of that object's key, and that row was written to the
    database.  The first two revisions publish the uploaded bytes; the
    fast-start revision publishes a non-empty file. *)
Theorem video_upload_success rev cfg env r w code payload w' :
  handlerUploadVideo rev cfg env r w = (Returned (respondWithJSON code payload), w') ->
  code = StatusOK /\ videoPersisted rev cfg env r w w' payload.
Proof.
  unfold videoPersisted. run_handler.
  destruct rev; all_answers_on_disk; intros H; try discriminate H;
    injection H as <- <- <-; (split; [reflexivity|]);
    repeat match goal with
           | H : negb _ = false |- _ => apply negb_false_iff in H
           | H : bool_decide (_ <> _) = false |- _ =>
               apply bool_decide_eq_false, dec_stable in H
           end;
    subst; do 5 eexists;
    repeat match goal with |- _ /\ _ => split end; try eassumption.
  all: try lazymatch goal with
           | |- s3Puts _ = _ => world_fields; reflexivity
           | |- dbUpdates _ = _ => world_fields; reflexivity
           | |- Some _ = Some _ => reflexivity
           | |- Ok _ = Ok _ => reflexivity
           | |- withVideoURL _ _ = _ => cbn [videoURL Key]; reflexivity
           end.
  all: cbn [Body]; unfold readFile; world_fields.
  - now rewrite lookup_insert_eq.
  - now rewrite lookup_insert_eq.
  - match goal with H : _ !! _ = Some _ |- _ => rewrite H end. intros ->. discriminate.
  - match goal with H : _ !! _ = Some _ |- _ => rewrite H end. intros ->. discriminate.
Qed.

Lemma video_upload_success_witness :
  let run := handlerUploadVideo RevFastStart Fixture.cfg (Fixture.env Fixture.goodTranscode)
               (Fixture.request "alice-token") Fixture.emptyWorld in
  StatusOK = StatusOK /\
  videoPersisted RevFastStart Fixture.cfg (Fixture.env Fixture.goodTranscode)
    (Fixture.request "alice-token") Fixture.emptyWorld run.2
    (withVideoURL
       "https://d111.cloudfront.net/landscape/AAAAAAAAAAAAAAAAAAAAAAAAAAAAAAAAAAAAAAAAAAA.mp4"
       Fixture.alicesVideo).
Proof.
  apply (video_upload_success RevFastStart Fixture.cfg (Fixture.env Fixture.goodTranscode)
           (Fixture.request "alice-token") Fixture.emptyWorld).
  vm_compute. reflexivity.
Defined.

(** ** The thumbnail handlers, on every path *)

(** X22: in both revisions of the thumbnail handler the database row is
    written for the record's owner only, and only together with the
    success answer carrying that row; the row is the stored record with
    its thumbnail URL set. *)
Theorem thumbnail_row_written_for_owner_only trev cfg env r w :
  let run := handlerUploadThumbnail trev cfg env r w in
  dbUpdates run.2 = dbUpdates w \/
  exists videoID token video part,
    uuid_Parse env (PathValue r "videoID") = Some videoID /\
    Auth.GetBearerToken (Header r) = Ok token /\
    ValidateJWT env token (jwtSecret cfg) = Some (UserID video) /\
    GetVideo env videoID = Some video /\
    FormFile r "thumbnail" = Some part /\
    let row := withThumbnailURL (thumbnailURL trev cfg videoID (partContentType part)) video in
    run.1 = Returned (respondWithJSON StatusOK row) /\
    dbUpdates run.2 = dbUpdates w ++ [row].
Proof.
  run_handler.
  destruct trev; all_answers_then_fields; try (left; reflexivity); right;
    repeat match goal with
           | H : bool_decide (_ <> _) = false |- _ =>
               apply bool_decide_eq_false, dec_stable in H
           end;
    subst; cbn [thumbnailURL];
    match goal with
    | Hid : uuid_Parse _ _ = Some ?u, Htok : Auth.GetBearerToken _ = Ok ?a,
      Hget : GetVideo _ _ = Some ?v, Hform : FormFile _ _ = Some ?f |- _ =>
        exists u, a, v, f
    end;
    repeat match goal with |- _ /\ _ => split end; assumption || reflexivity.
Qed.



